(** * runc / libcontainer: rootless containers, factory, init handoff, listing

    A shallow embedding of
      - libcontainer/factory_linux.go       (isRootless, Create, Load,
                                             StartInitialization, validateID)
      - libcontainer/configs/validate/rootless.go (RootlessValidator)
      - libcontainer/cgroups/rootless/rootless.go (the rootless cgroup manager)
      - libcontainer/specconv/example.go    (Example, ToRootless)
      - list.go                             (getContainers)

    Go values are modelled as follows: [int] as [Z]; [string] as [string]
    (a sequence of bytes); a slice that the code only ranges over or takes
    the length of as [list] (a nil slice is [[]]); a slice or pointer that
    is compared with [reflect.DeepEqual] against its zero value as
    [option]; [map[string]string] as [gmap string string]; a Go result
    pair [(T, error)] as [result T]; the [error] interface as the
    inductive [error]. *)

From Stdlib Require Import ZArith String Ascii List Bool Lia.
From stdpp Require Import base option gmap strings list.
Import ListNotations.

Local Open Scope string_scope.
Local Open Scope list_scope.
Local Open Scope Z_scope.

(** ** Errors *)

(** errno values that the operating system reports for a path. *)
Inductive Errno := ENOENT | EACCES | ENOTDIR | EROFS | EIO.

(** The error kinds of libcontainer that the factory returns. *)
Inductive ErrorCode :=
| IdInUse
| InvalidIdFormat
| ContainerNotExists
| ConfigInvalid
| SystemError.

(** Go's [error] interface, restricted to the dynamic types that reach the
    modelled code: errors built by [fmt.Errorf], [*os.PathError] and
    libcontainer's [*genericError] (an error code wrapped around a cause). *)
Inductive error :=
| Errorf (msg : string)
| PathError (op path : string) (errno : Errno)
| genericError (ECode : ErrorCode) (Err : error).

Inductive result (A : Type) :=
| Ok (a : A)
| Err (e : error).
Arguments Ok {A} a.
Arguments Err {A} e.

Definition newGenericError (err : error) (c : ErrorCode) : error :=
  genericError c err.

(** [os.IsNotExist]. *)
Definition IsNotExist (err : error) : bool :=
  match err with
  | PathError _ _ ENOENT => true
  | _ => false
  end.

(** How a Go call ends: it returns, it panics, or (for the init process)
    it replaces the process image and never returns. *)
Inductive outcome (A : Type) :=
| Returns (a : A)
| Panics (v : error)
| Execs.
Arguments Returns {A} a.
Arguments Panics {A} v.
Arguments Execs {A}.

(** The value of the run-time panic of a nil dereference. *)
Definition nilDereference : error :=
  Errorf "runtime error: invalid memory address or nil pointer dereference".

(** ** Package strings *)

Module strings.

(** [strings.HasPrefix(s, prefix)]. *)
Definition HasPrefix (s pre : string) : bool := String.prefix pre s.

(** [strings.Contains(s, substr)]. *)
Fixpoint Contains (s substr : string) : bool :=
  String.prefix substr s ||
  match s with
  | EmptyString => false
  | String _ s' => Contains s' substr
  end.

(** [splitAcc sep cur s] splits [s] at every byte [sep]; [cur] is the
    piece read so far, in reverse. *)
Fixpoint splitAcc (sep : ascii) (cur : string) (s : string) : list string :=
  match s with
  | EmptyString => [String.rev cur]
  | String c s' =>
      if Ascii.eqb c sep then String.rev cur :: splitAcc sep EmptyString s'
      else splitAcc sep (String c cur) s'
  end.

(** [strings.Split(s, sep)] for a one-byte separator: the pieces of [s]
    between separators; always at least one piece. *)
Definition Split (s : string) (sep : ascii) : list string :=
  splitAcc sep EmptyString s.


End strings.

(** ** Package configs: resource limits (cgroup_unix.go) *)

Module cgroupcfg.

(** Element types of the per-device lists of the resource limits. *)
Record Device := {
  DevicePath : string;
  DeviceMajor : Z;
  DeviceMinor : Z;
  DevicePermissions : string;
  DeviceAllow : bool
}.
Record WeightDevice := { WeightMajor : Z; WeightMinor : Z; Weight : Z; LeafWeight : Z }.
Record ThrottleDevice := { ThrottleMajor : Z; ThrottleMinor : Z; Rate : Z }.
Record HugepageLimit := { Pagesize : string; Limit : Z }.
Record IfPrioMap := { Interface : string; Priority : Z }.

Inductive FreezerState := Undefined | Frozen | Thawed.

(** Modelled from the spec: the resource-limits structure
    ([configs.Resources], declared in libcontainer/configs, not under
    src/).  The rootless validator walks it by reflection and decides by
    field NAME, so every field stands here under the name the configs
    package declares it with, in declaration order.  A slice or pointer
    field is an [option]: [None] is Go's nil, the zero value. *)
Record Resources := {
  AllowAllDevices : option bool;
  AllowedDevices : option (list Device);
  DeniedDevices : option (list Device);
  Devices : option (list Device);
  Memory : Z;
  MemoryReservation : Z;
  MemorySwap : Z;
  KernelMemory : Z;
  KernelMemoryTCP : Z;
  CpuShares : Z;
  CpuQuota : Z;
  CpuPeriod : Z;
  CpuRtRuntime : Z;
  CpuRtPeriod : Z;
  CpusetCpus : string;
  CpusetMems : string;
  PidsLimit : Z;
  BlkioWeight : Z;
  BlkioLeafWeight : Z;
  BlkioWeightDevice : option (list WeightDevice);
  BlkioThrottleReadBpsDevice : option (list ThrottleDevice);
  BlkioThrottleWriteBpsDevice : option (list ThrottleDevice);
  BlkioThrottleReadIOPSDevice : option (list ThrottleDevice);
  BlkioThrottleWriteIOPSDevice : option (list ThrottleDevice);
  Freezer : FreezerState;
  HugetlbLimit : option (list HugepageLimit);
  OomKillDisable : bool;
  MemorySwappiness : option Z;
  NetPrioIfpriomap : option (list IfPrioMap);
  NetClsClassid : Z
}.

(** The zero value [reflect.Zero(left.Type())]. *)
Definition zeroResources : Resources := {|
  AllowAllDevices := None; AllowedDevices := None; DeniedDevices := None;
  Devices := None;
  Memory := 0; MemoryReservation := 0; MemorySwap := 0; KernelMemory := 0;
  KernelMemoryTCP := 0;
  CpuShares := 0; CpuQuota := 0; CpuPeriod := 0; CpuRtRuntime := 0;
  CpuRtPeriod := 0; CpusetCpus := ""; CpusetMems := ""; PidsLimit := 0;
  BlkioWeight := 0; BlkioLeafWeight := 0; BlkioWeightDevice := None;
  BlkioThrottleReadBpsDevice := None; BlkioThrottleWriteBpsDevice := None;
  BlkioThrottleReadIOPSDevice := None; BlkioThrottleWriteIOPSDevice := None;
  Freezer := Undefined; HugetlbLimit := None; OomKillDisable := false;
  MemorySwappiness := None; NetPrioIfpriomap := None; NetClsClassid := 0
|}.

(** [reflect.DeepEqual] of one field against the same field of the zero
    value, by the field's kind. *)
Definition zeroInt (x : Z) : bool := x =? 0.
Definition zeroString (s : string) : bool := String.eqb s "".
Definition zeroBool (b : bool) : bool := negb b.
Definition zeroNil {A : Type} (p : option A) : bool :=
  match p with None => true | Some _ => false end.
Definition zeroFreezer (f : FreezerState) : bool :=
  match f with Undefined => true | _ => false end.

(** One field as reflection shows it: [left.Type().Field(i).Name] and
    whether [reflect.DeepEqual(l.Interface(), r.Interface())] holds for it. *)
Record Field := { Name : string; isDefault : bool }.

(** The fields of a [Resources] value, [left.Field(0)] to
    [left.Field(left.NumField()-1)]. *)
Definition fields (r : Resources) : list Field := [
  {| Name := "AllowAllDevices"; isDefault := zeroNil (AllowAllDevices r) |};
  {| Name := "AllowedDevices"; isDefault := zeroNil (AllowedDevices r) |};
  {| Name := "DeniedDevices"; isDefault := zeroNil (DeniedDevices r) |};
  {| Name := "Devices"; isDefault := zeroNil (Devices r) |};
  {| Name := "Memory"; isDefault := zeroInt (Memory r) |};
  {| Name := "MemoryReservation"; isDefault := zeroInt (MemoryReservation r) |};
  {| Name := "MemorySwap"; isDefault := zeroInt (MemorySwap r) |};
  {| Name := "KernelMemory"; isDefault := zeroInt (KernelMemory r) |};
  {| Name := "KernelMemoryTCP"; isDefault := zeroInt (KernelMemoryTCP r) |};
  {| Name := "CpuShares"; isDefault := zeroInt (CpuShares r) |};
  {| Name := "CpuQuota"; isDefault := zeroInt (CpuQuota r) |};
  {| Name := "CpuPeriod"; isDefault := zeroInt (CpuPeriod r) |};
  {| Name := "CpuRtRuntime"; isDefault := zeroInt (CpuRtRuntime r) |};
  {| Name := "CpuRtPeriod"; isDefault := zeroInt (CpuRtPeriod r) |};
  {| Name := "CpusetCpus"; isDefault := zeroString (CpusetCpus r) |};
  {| Name := "CpusetMems"; isDefault := zeroString (CpusetMems r) |};
  {| Name := "PidsLimit"; isDefault := zeroInt (PidsLimit r) |};
  {| Name := "BlkioWeight"; isDefault := zeroInt (BlkioWeight r) |};
  {| Name := "BlkioLeafWeight"; isDefault := zeroInt (BlkioLeafWeight r) |};
  {| Name := "BlkioWeightDevice"; isDefault := zeroNil (BlkioWeightDevice r) |};
  {| Name := "BlkioThrottleReadBpsDevice";
     isDefault := zeroNil (BlkioThrottleReadBpsDevice r) |};
  {| Name := "BlkioThrottleWriteBpsDevice";
     isDefault := zeroNil (BlkioThrottleWriteBpsDevice r) |};
  {| Name := "BlkioThrottleReadIOPSDevice";
     isDefault := zeroNil (BlkioThrottleReadIOPSDevice r) |};
  {| Name := "BlkioThrottleWriteIOPSDevice";
     isDefault := zeroNil (BlkioThrottleWriteIOPSDevice r) |};
  {| Name := "Freezer"; isDefault := zeroFreezer (Freezer r) |};
  {| Name := "HugetlbLimit"; isDefault := zeroNil (HugetlbLimit r) |};
  {| Name := "OomKillDisable"; isDefault := zeroBool (OomKillDisable r) |};
  {| Name := "MemorySwappiness"; isDefault := zeroNil (MemorySwappiness r) |};
  {| Name := "NetPrioIfpriomap"; isDefault := zeroNil (NetPrioIfpriomap r) |};
  {| Name := "NetClsClassid"; isDefault := zeroInt (NetClsClassid r) |}
].

(** [reflect.DeepEqual(left.Interface(), right.Interface())] on the whole
    structure: every field equals the zero value's. *)
Definition DeepEqualZero (r : Resources) : bool := forallb isDefault (fields r).

(** The fields that hold device-access rules (the devices cgroup): the
    whitelist switch and the allowed, denied and combined rule lists. *)
Definition deviceAccessField (name : string) : bool :=
  bool_decide (name ∈ ["AllowAllDevices"; "AllowedDevices"; "DeniedDevices"; "Devices"]).

(** [configs.Cgroup]; [Resources] is the embedded [*Resources]. *)
Record Cgroup := {
  CgroupName : string;
  Parent : string;
  Path : string;
  ScopePrefix : string;
  Paths : option (gmap string string);
  Resources_ : option Resources
}.

End cgroupcfg.

(** ** Package configs: namespaces, mappings, mounts, Config *)

Module configs.

Inductive NamespaceType := NEWNET | NEWPID | NEWNS | NEWUTS | NEWIPC | NEWUSER.

#[global] Instance NamespaceType_eq_dec : EqDecision NamespaceType.
Proof. solve_decision. Defined.

Record Namespace := { Type_ : NamespaceType; Path_ : string }.

(** Modelled from the spec: [Namespaces.Contains] (libcontainer/configs, not
    under src/): whether the configuration has a namespace entry of the
    given type ("a user-namespace entry present in the configuration"). *)
Definition Contains (n : list Namespace) (t : NamespaceType) : bool :=
  existsb (fun ns => bool_decide (Type_ ns = t)) n.

Record IDMap := { ContainerID : Z; HostID : Z; Size : Z }.

Record Mount := {
  Source : string;
  Destination : string;
  Device : string;
  Data : string
}.

(** [configs.Config]: the fields the modelled code reads, and three of the
    others ([Rootfs], [Hostname], [Labels]). *)
Record Config := {
  Rootfs : string;
  Hostname : string;
  Namespaces : list Namespace;
  Mounts : list Mount;
  UidMappings : list IDMap;
  GidMappings : list IDMap;
  Cgroups : option cgroupcfg.Cgroup;
  Labels : list string
}.

(** Modelled from the spec: [Config.hostIDFromMapping] (libcontainer/configs,
    not under src/): the host-side ID that the first mapping covering
    [containerID] sends it to, if a mapping covers it. *)
Fixpoint hostIDFromMapping (containerID : Z) (uMap : list IDMap) : option Z :=
  match uMap with
  | [] => None
  | m :: rest =>
      if (ContainerID m <=? containerID) && (containerID <=? ContainerID m + Size m - 1)
      then Some (HostID m + (containerID - ContainerID m))
      else hostIDFromMapping containerID rest
  end.

(** Modelled from the spec: [Config.HostUID] (libcontainer/configs, not under
    src/): "the configured host-side root UID mapping".  With a user
    namespace it is the host ID that container root (ID 0) is mapped to,
    and an error when no mapping covers container root; without one it is
    0, the host's root. *)
Definition HostUID (c : Config) : result Z :=
  if Contains (Namespaces c) NEWUSER then
    match UidMappings c with
    | [] => Err (Errorf "User namespaces enabled, but no user mappings found.")
    | _ =>
        match hostIDFromMapping 0 (UidMappings c) with
        | Some id => Ok id
        | None => Err (Errorf "User namespaces enabled, but no root user mapping found.")
        end
    end
  else Ok 0.

(** Modelled from the spec: [Config.HostGID] (libcontainer/configs, not under
    src/): "the host-side GID mapping", as [HostUID] for groups. *)
Definition HostGID (c : Config) : result Z :=
  if Contains (Namespaces c) NEWUSER then
    match GidMappings c with
    | [] => Err (Errorf "User namespaces enabled, but no gid mappings found.")
    | _ =>
        match hostIDFromMapping 0 (GidMappings c) with
        | Some id => Ok id
        | None => Err (Errorf "User namespaces enabled, but no root group mapping found.")
        end
    end
  else Ok 0.

End configs.

(** ** libcontainer/factory_linux.go: isRootless *)

(** [isRootless(config)].  [euid] and [egid] are what [os.Geteuid()] and
    [os.Getegid()] return in the invoking process.  The result is Go's
    pair: the flag and the error ([None] is nil). *)
Definition isRootless (euid egid : Z) (config : configs.Config) : bool * option error :=
  let rootless := false in
  match configs.HostUID config with
  | Err err => (false, Some err)
  | Ok rootuid =>
      let step :=
        if negb (euid =? 0) then
          if negb (configs.Contains (configs.Namespaces config) configs.NEWUSER) then
            Err (Errorf "rootless containers require user namespaces")
          else if negb (rootuid =? euid) then
            Err (Errorf "rootless containers cannot map container root to a different host user")
          else Ok true
        else Ok rootless in
      match step with
      | Err err => (false, Some err)
      | Ok rootless =>
          match configs.HostGID config with
          | Err err => (false, Some err)
          | Ok rootgid =>
              if rootless && negb (rootgid =? egid) then
                (false, Some (Errorf "rootless containers cannot map container root to a different host group"))
              else if rootless &&
                      (negb (Z.of_nat (length (configs.UidMappings config)) =? 1) ||
                       negb (match configs.UidMappings config with
                             | m :: _ => configs.Size m =? 1
                             | [] => false
                             end)) then
                (false, Some (Errorf "rootless containers cannot map more than one user"))
              else if rootless &&
                      (negb (Z.of_nat (length (configs.GidMappings config)) =? 1) ||
                       negb (match configs.GidMappings config with
                             | m :: _ => configs.Size m =? 1
                             | [] => false
                             end)) then
                (false, Some (Errorf "rootless containers cannot map more than one group"))
              else (rootless, None)
          end
      end
  end.

(** ** libcontainer/configs/validate/rootless.go *)

Module validate.

(** The body of the inner loop of [mount]: the two tests made on one
    option of a mount's data. *)
Definition mountOption (opt : string) : option error :=
  if strings.HasPrefix opt "uid=" && negb (String.eqb opt "uid=0") then
    Some (Errorf "cannot specify uid= mount options in rootless containers where argument isn't 0")
  else if strings.HasPrefix opt "gid=" && negb (String.eqb opt "gid=0") then
    Some (Errorf "cannot specify gid= mount options in rootless containers where argument isn't 0")
  else None.

(** [for _, opt := range strings.Split(mount.Data, ",")]. *)
Fixpoint mountOptions (opts : list string) : option error :=
  match opts with
  | [] => None
  | opt :: rest =>
      match mountOption opt with
      | Some err => Some err
      | None => mountOptions rest
      end
  end.

(** [for _, mount := range config.Mounts]. *)
Fixpoint mountLoop (mounts : list configs.Mount) : option error :=
  match mounts with
  | [] => None
  | m :: rest =>
      match mountOptions (strings.Split (configs.Data m) ","%char) with
      | Some err => Some err
      | None => mountLoop rest
      end
  end.

(** [RootlessValidator.mount]. *)
Definition mount (config : configs.Config) : option error :=
  mountLoop (configs.Mounts config).

(** [fmt.Errorf("...: field %q is non-default", name)]. *)
Definition nonDefaultError (name : string) : error :=
  Errorf ("cannot specify resource limits in rootless container: field "
          +:+ String "034"%char name +:+ String "034"%char " is non-default").

(** [for i := 0; i < left.NumField(); i++]: the walk over the fields. *)
Fixpoint cgroupFields (fs : list cgroupcfg.Field) : option error :=
  match fs with
  | [] => None
  | f :: rest =>
      let name := cgroupcfg.Name f in
      if strings.Contains name "Device" then cgroupFields rest
      else if negb (cgroupcfg.isDefault f) then Some (nonDefaultError name)
      else cgroupFields rest
  end.

(** [RootlessValidator.cgroup]. *)
Definition cgroup (config : configs.Config) : option error :=
  match configs.Cgroups config with
  | None => None
  | Some cg =>
      match cgroupcfg.Resources_ cg with
      | None => None
      | Some left_ =>
          if cgroupcfg.DeepEqualZero left_ then None
          else cgroupFields (cgroupcfg.fields left_)
      end
  end.

(** [RootlessValidator.Validate]; [config] is a pointer, [None] is nil. *)
Definition Validate (config : option configs.Config) : option error :=
  match config with
  | None => None
  | Some config =>
      match mount config with
      | Some err => Some err
      | None =>
          match cgroup config with
          | Some err => Some err
          | None => None
          end
      end
  end.

End validate.

(** ** libcontainer/cgroups/rootless/rootless.go *)

Module rootless.

Section Manager.

(** The state outside the manager that a cgroup manager could act on (the
    cgroup file system). *)
Variable World : Type.

Record Manager := {
  Cgroups : option cgroupcfg.Cgroup;
  Paths : option (gmap string string)
}.

(** Each method returns its error and the world it leaves behind. *)
Definition Apply (m : Manager) (pid : Z) (w : World) : option error * World :=
  match Cgroups m with
  | None => (None, w)
  | Some cg =>
      match cgroupcfg.Paths cg with
      | Some _ => (Some (Errorf "cannot change cgroup path in rootless container"), w)
      | None => (None, w)
      end
  end.

Definition GetPaths (m : Manager) : option (gmap string string) := Paths m.

Definition Set_ (m : Manager) (container : configs.Config) (w : World)
  : option error * World :=
  (None, w).

Definition Freeze (m : Manager) (state : cgroupcfg.FreezerState) (w : World)
  : option error * World :=
  (Some (Errorf "cannot use freezer cgroup in rootless container"), w).

Definition Destroy (m : Manager) (w : World) : option error * World :=
  (None, w).

End Manager.

End rootless.

(** ** The runtime-spec types that specconv/example.go fills in *)

Module specs.

Record Platform := { OS : string; Arch : string }.
Record Root := { RootPath : string; Readonly : bool }.
Record User := { UID : Z; GID : Z }.
Record Rlimit := { RlimitType : string; Hard : Z; Soft : Z }.
Record Process := {
  Terminal : bool;
  ProcessUser : User;
  Args : list string;
  Env : list string;
  Cwd : string;
  NoNewPrivileges : bool;
  Capabilities : list string;
  Rlimits : list Rlimit
}.
Record Mount := {
  Destination : string;
  MountType : string;
  Source : string;
  Options : list string
}.
Record DeviceCgroup := { Allow : bool; Access : option string }.
Record Resources := { Devices : list DeviceCgroup }.
Record Namespace := { Type_ : string; Path : string }.
Record IDMapping := { HostID : Z; ContainerID : Z; Size : Z }.
Record Linux := {
  UIDMappings : list IDMapping;
  GIDMappings : list IDMapping;
  MaskedPaths : list string;
  ReadonlyPaths : list string;
  Resources_ : option Resources;
  Namespaces : list Namespace
}.
Record Spec := {
  Version : string;
  Platform_ : Platform;
  Root_ : Root;
  Process_ : Process;
  Hostname : string;
  Mounts : list Mount;
  Linux_ : Linux
}.

(** [specs.UserNamespace]. *)
Definition UserNamespace : string := "user".

End specs.

(** ** libcontainer/specconv/example.go *)

Module specconv.

(** Go's conversion [uint32(x)] of an [int]. *)
Definition uint32 (x : Z) : Z := x mod 2 ^ 32.

Definition namespace (t : string) : specs.Namespace :=
  {| specs.Type_ := t; specs.Path := "" |}.

(** [Example()]; [version], [goos] and [goarch] stand for [specs.Version],
    [runtime.GOOS] and [runtime.GOARCH]. *)
Definition Example (version goos goarch : string) : specs.Spec := {|
  specs.Version := version;
  specs.Platform_ := {| specs.OS := goos; specs.Arch := goarch |};
  specs.Root_ := {| specs.RootPath := "rootfs"; specs.Readonly := true |};
  specs.Process_ := {|
    specs.Terminal := true;
    specs.ProcessUser := {| specs.UID := 0; specs.GID := 0 |};
    specs.Args := ["sh"];
    specs.Env := ["PATH=/usr/local/sbin:/usr/local/bin:/usr/sbin:/usr/bin:/sbin:/bin";
                  "TERM=xterm"];
    specs.Cwd := "/";
    specs.NoNewPrivileges := true;
    specs.Capabilities := ["CAP_AUDIT_WRITE"; "CAP_KILL"; "CAP_NET_BIND_SERVICE"];
    specs.Rlimits := [{| specs.RlimitType := "RLIMIT_NOFILE";
                         specs.Hard := 1024; specs.Soft := 1024 |}]
  |};
  specs.Hostname := "runc";
  specs.Mounts := [
    {| specs.Destination := "/proc"; specs.MountType := "proc";
       specs.Source := "proc"; specs.Options := [] |};
    {| specs.Destination := "/dev"; specs.MountType := "tmpfs";
       specs.Source := "tmpfs";
       specs.Options := ["nosuid"; "strictatime"; "mode=755"; "size=65536k"] |};
    {| specs.Destination := "/dev/pts"; specs.MountType := "devpts";
       specs.Source := "devpts";
       specs.Options := ["nosuid"; "noexec"; "newinstance"; "ptmxmode=0666";
                         "mode=0620"; "gid=5"] |};
    {| specs.Destination := "/dev/shm"; specs.MountType := "tmpfs";
       specs.Source := "shm";
       specs.Options := ["nosuid"; "noexec"; "nodev"; "mode=1777"; "size=65536k"] |};
    {| specs.Destination := "/dev/mqueue"; specs.MountType := "mqueue";
       specs.Source := "mqueue";
       specs.Options := ["nosuid"; "noexec"; "nodev"] |};
    {| specs.Destination := "/sys"; specs.MountType := "sysfs";
       specs.Source := "sysfs";
       specs.Options := ["nosuid"; "noexec"; "nodev"; "ro"] |};
    {| specs.Destination := "/sys/fs/cgroup"; specs.MountType := "cgroup";
       specs.Source := "cgroup";
       specs.Options := ["nosuid"; "noexec"; "nodev"; "relatime"; "ro"] |}
  ];
  specs.Linux_ := {|
    specs.UIDMappings := [];
    specs.GIDMappings := [];
    specs.MaskedPaths := ["/proc/kcore"; "/proc/latency_stats"; "/proc/timer_stats";
                          "/proc/sched_debug"];
    specs.ReadonlyPaths := ["/proc/asound"; "/proc/bus"; "/proc/fs"; "/proc/irq";
                            "/proc/sys"; "/proc/sysrq-trigger"];
    specs.Resources_ := Some {| specs.Devices :=
                                  [{| specs.Allow := false; specs.Access := Some "rwm" |}] |};
    specs.Namespaces := [namespace "pid"; namespace "network"; namespace "ipc";
                         namespace "uts"; namespace "mount"]
  |}
|}.

(** The inner loop of [ToRootless]: the options that are appended to
    [options], in order. *)
Fixpoint keepOptions (opts : list string) : list string :=
  match opts with
  | [] => []
  | option :: rest =>
      if negb (strings.HasPrefix option "gid=") && negb (strings.HasPrefix option "uid=")
      then option :: keepOptions rest
      else keepOptions rest
  end.

(** The outer loop: [spec.Mounts[i].Options = options] for every [i]. *)
Definition stripMount (m : specs.Mount) : specs.Mount :=
  {| specs.Destination := specs.Destination m;
     specs.MountType := specs.MountType m;
     specs.Source := specs.Source m;
     specs.Options := keepOptions (specs.Options m) |}.

(** [ToRootless(spec)]: the spec as the call leaves it.  [euid] and [egid]
    are [os.Geteuid()] and [os.Getegid()]. *)
Definition ToRootless (euid egid : Z) (spec : specs.Spec) : specs.Spec :=
  let linux := specs.Linux_ spec in
  {| specs.Version := specs.Version spec;
     specs.Platform_ := specs.Platform_ spec;
     specs.Root_ := specs.Root_ spec;
     specs.Process_ := specs.Process_ spec;
     specs.Hostname := specs.Hostname spec;
     specs.Mounts := map stripMount (specs.Mounts spec);
     specs.Linux_ := {|
       specs.UIDMappings :=
         [{| specs.HostID := uint32 euid; specs.ContainerID := 0; specs.Size := 1 |}];
       specs.GIDMappings :=
         [{| specs.HostID := uint32 egid; specs.ContainerID := 0; specs.Size := 1 |}];
       specs.MaskedPaths := specs.MaskedPaths linux;
       specs.ReadonlyPaths := specs.ReadonlyPaths linux;
       specs.Resources_ := None;
       specs.Namespaces :=
         specs.Namespaces linux ++ [{| specs.Type_ := specs.UserNamespace; specs.Path := "" |}]
     |}
  |}.

End specconv.

(** ** libcontainer/factory_linux.go: the factory *)

(** [cgroups.Manager]: the three implementations the option funcs select.
    Each holds the cgroup configuration and the resolved paths. *)
Inductive Manager :=
| fsManager (Cgroups : option cgroupcfg.Cgroup) (Paths : option (gmap string string))
| systemdManager (Cgroups : option cgroupcfg.Cgroup) (Paths : option (gmap string string))
| rootlessManager (m : rootless.Manager).

Definition isRootlessManager (m : Manager) : bool :=
  match m with rootlessManager _ => true | _ => false end.

(** The persisted [State] that [state.json] decodes to. *)
Record State := {
  ID : string;
  InitProcessPid : Z;
  InitProcessStartTime : string;
  Created : Z;
  Config : configs.Config;
  Rootless : bool;
  CgroupPaths : option (gmap string string);
  ExternalDescriptors : list string
}.

Record nonChildProcess := {
  processPid : Z;
  processStartTime : string;
  fds : list string
}.

(** The dynamic type of [c.state]. *)
Inductive containerStateKind :=
| stoppedState | loadedState | createdState | runningState | pausedState.

Record linuxContainer := {
  id : string;
  root : string;
  config : configs.Config;
  cgroupManager : Manager;
  initPath : string;
  initArgs : list string;
  criuPath : string;
  initProcess : option nonChildProcess;
  rootless_ : bool;
  created : Z;
  state : containerStateKind
}.

(** [LinuxFactory].  [Validator] is the interface value [validate.Validator],
    a function of the configuration (the spec: "pure function(s) ...
    side-effect free"); [NewCgroupsManager] is the function-valued field. *)
Record LinuxFactory := {
  Root : string;
  InitPath : string;
  InitArgs : list string;
  CriuPath : string;
  Validator : configs.Config -> option error;
  NewCgroupsManager :
    option cgroupcfg.Cgroup -> option (gmap string string) -> Manager
}.

Definition setNewCgroupsManager (l : LinuxFactory)
    (f : option cgroupcfg.Cgroup -> option (gmap string string) -> Manager)
  : LinuxFactory :=
  {| Root := Root l; InitPath := InitPath l; InitArgs := InitArgs l;
     CriuPath := CriuPath l; Validator := Validator l;
     NewCgroupsManager := f |}.

(** The option funcs: each returns the factory as it leaves it, and nil. *)
Definition SystemdCgroups (l : LinuxFactory) : LinuxFactory * option error :=
  (setNewCgroupsManager l (fun config paths => systemdManager config paths), None).

Definition Cgroupfs (l : LinuxFactory) : LinuxFactory * option error :=
  (setNewCgroupsManager l (fun config paths => fsManager config paths), None).

Definition RootlessCgroups (l : LinuxFactory) : LinuxFactory * option error :=
  (setNewCgroupsManager l
     (fun config paths =>
        rootlessManager {| rootless.Cgroups := config; rootless.Paths := paths |}),
   None).

Definition stateFilename : string := "state.json".
Definition maxIdLen : Z := 1024.

(** One byte of the class [[\w+-\.]]: a word character ([0-9A-Za-z_]) or a
    byte of the range from [+] (43) to [.] (46), that is [+], [,], [-], [.]. *)
Definition idChar (c : ascii) : bool :=
  let n := Z.of_nat (nat_of_ascii c) in
  ((48 <=? n) && (n <=? 57)) || ((65 <=? n) && (n <=? 90)) ||
  ((97 <=? n) && (n <=? 122)) || (n =? 95) || ((43 <=? n) && (n <=? 46)).

(** [idRegex.MatchString(id)] for [idRegex = ^[\w+-\.]+$]: one or more
    bytes, all of the class. *)
Definition idRegexMatchString (s : string) : bool :=
  match s with
  | EmptyString => false
  | _ => forallb idChar (list_ascii_of_string s)
  end.

(** [l.validateID(id)]. *)
Definition validateID (l : LinuxFactory) (id : string) : option error :=
  if negb (idRegexMatchString id) then
    Some (newGenericError (Errorf ("invalid id format: " +:+ id)) InvalidIdFormat)
  else if Z.of_nat (String.length id) >? maxIdLen then
    Some (newGenericError (Errorf ("invalid id format: " +:+ id)) InvalidIdFormat)
  else None.

(** What the factory calls outside src/: package os, filepath and json, and
    the container's [refreshState] (container_linux.go).  [W] is the state
    of the file system and of the processes on the host.  Calls that only
    inspect the host return no new state. *)
Class Host (W : Type) := {
  (** An open file, [*os.File]. *)
  File : Type;
  (** [os.Stat(name)]: nil when the file exists. *)
  os_Stat : W -> string -> option error;
  (** [os.MkdirAll(path, 0700)]. *)
  os_MkdirAll : W -> string -> option error * W;
  (** [os.Open(name)]. *)
  os_Open : W -> string -> result File;
  (** [json.NewDecoder(f).Decode(&state)]: an error, or the pointer
      [state] as the call leaves it, which is nil ([None]) when the file
      holds the JSON literal [null]. *)
  json_Decode : File -> result (option State);
  (** [filepath.Join(elem...)]. *)
  filepath_Join : string -> string -> string;
  (** [c.refreshState()]: an error, or the state that [c.state] is set to
      when the container is reconciled against the host (the spec: a
      loaded container "must immediately reconcile to one of Running,
      Paused, Stopped"). *)
  refreshState : W -> linuxContainer -> result containerStateKind
}.

Definition setState (c : linuxContainer) (k : containerStateKind) : linuxContainer :=
  {| id := id c; root := root c; config := config c;
     cgroupManager := cgroupManager c; initPath := initPath c;
     initArgs := initArgs c; criuPath := criuPath c;
     initProcess := initProcess c; rootless_ := rootless_ c;
     created := created c; state := k |}.

Section Factory.

Context {W : Type} `{Host W}.

(** [l.Create(id, config)].  The call may change the factory (it is a
    pointer receiver) and the host: the result is the Go result together
    with the factory and the host as the call leaves them. *)
Definition Create (l : LinuxFactory) (euid egid : Z) (w : W)
    (id : string) (config : configs.Config)
  : result linuxContainer * LinuxFactory * W :=
  if String.eqb (Root l) "" then
    (Err (newGenericError (Errorf "invalid root") ConfigInvalid), l, w)
  else
  match validateID l id with
  | Some err => (Err err, l, w)
  | None =>
  match Validator l config with
  | Some err => (Err (newGenericError err ConfigInvalid), l, w)
  | None =>
  match isRootless euid egid config with
  | (_, Some err) => (Err (newGenericError err ConfigInvalid), l, w)
  | (rootless, None) =>
  match (if rootless then validate.Validate (Some config) else None) with
  | Some err => (Err (newGenericError err ConfigInvalid), l, w)
  | None =>
  let containerRoot := filepath_Join (Root l) id in
  match os_Stat w containerRoot with
  | None =>
      (Err (newGenericError (Errorf ("container with id exists: " +:+ id)) IdInUse), l, w)
  | Some err =>
  if negb (IsNotExist err) then (Err (newGenericError err SystemError), l, w)
  else
  match os_MkdirAll w containerRoot with
  | (Some err, w') => (Err (newGenericError err SystemError), l, w')
  | (None, w') =>
      let l' := if rootless then fst (RootlessCgroups l) else l in
      let c := {|
        id := id;
        root := containerRoot;
        config := config;
        initPath := InitPath l';
        initArgs := InitArgs l';
        criuPath := CriuPath l';
        cgroupManager := NewCgroupsManager l' (configs.Cgroups config) None;
        rootless_ := rootless;
        initProcess := None;
        created := 0;
        state := stoppedState
      |} in
      (Ok c, l', w')
  end end end end end end.

(** [l.loadState(root)]: the [*State] it returns may be nil. *)
Definition loadState (l : LinuxFactory) (w : W) (root : string)
  : result (option State) :=
  match os_Open w (filepath_Join root stateFilename) with
  | Err err =>
      if IsNotExist err then Err (newGenericError err ContainerNotExists)
      else Err (newGenericError err SystemError)
  | Ok f =>
      match json_Decode f with
      | Err err => Err (newGenericError err SystemError)
      | Ok state => Ok state
      end
  end.

(** [l.Load(id)].  It assigns no field of the factory and only inspects
    the host.  [state.InitProcessPid] on a nil [state] is a nil
    dereference, a run-time panic. *)
Definition Load (l : LinuxFactory) (w : W) (id : string)
  : outcome (result linuxContainer) :=
  if String.eqb (Root l) "" then
    Returns (Err (newGenericError (Errorf "invalid root") ConfigInvalid))
  else
  let containerRoot := filepath_Join (Root l) id in
  match loadState l w containerRoot with
  | Err err => Returns (Err err)
  | Ok None => Panics nilDereference
  | Ok (Some state) =>
      let r := {|
        processPid := InitProcessPid state;
        processStartTime := InitProcessStartTime state;
        fds := ExternalDescriptors state
      |} in
      let c := {|
        initProcess := Some r;
        id := id;
        config := Config state;
        initPath := InitPath l;
        initArgs := InitArgs l;
        criuPath := CriuPath l;
        cgroupManager := NewCgroupsManager l (configs.Cgroups (Config state)) (CgroupPaths state);
        root := containerRoot;
        created := Created state;
        rootless_ := Rootless state;
        state := loadedState
      |} in
      match refreshState w c with
      | Err err => Returns (Err err)
      | Ok k => Returns (Ok (setState c k))
      end
  end.

End Factory.

(** ** libcontainer/factory_linux.go: StartInitialization *)

Definition quote (s : string) : string :=
  String "034"%char s +:+ String "034"%char "".

Definition errnoString (e : Errno) : string :=
  match e with
  | ENOENT => "no such file or directory"
  | EACCES => "permission denied"
  | ENOTDIR => "not a directory"
  | EROFS => "read-only file system"
  | EIO => "input/output error"
  end.

(** [err.Error()]. *)
Fixpoint errorString (e : error) : string :=
  match e with
  | Errorf msg => msg
  | PathError op path errno => op +:+ " " +:+ path +:+ ": " +:+ errnoString errno
  | genericError _ cause => errorString cause
  end.

(** [strconv.Atoi]: an optional sign and one or more decimal digits, within
    the range of a 64-bit [int]. *)
Definition digit (c : ascii) : option Z :=
  let n := Z.of_nat (nat_of_ascii c) in
  if (48 <=? n) && (n <=? 57) then Some (n - 48) else None.

Fixpoint digits (s : string) (acc : Z) : option Z :=
  match s with
  | EmptyString => Some acc
  | String c s' =>
      match digit c with
      | Some d => digits s' (10 * acc + d)
      | None => None
      end
  end.

Definition Atoi (s : string) : result Z :=
  let syntax := Errorf ("strconv.Atoi: parsing " +:+ quote s +:+ ": invalid syntax") in
  let range := Errorf ("strconv.Atoi: parsing " +:+ quote s +:+ ": value out of range") in
  let '(neg, body) :=
    match s with
    | String "+"%char r => (false, r)
    | String "-"%char r => (true, r)
    | _ => (false, s)
    end in
  match body with
  | EmptyString => Err syntax
  | _ =>
      match digits body 0 with
      | None => Err syntax
      | Some n =>
          let v := if neg : bool then - n else n in
          if (- 2 ^ 63 <=? v) && (v <=? 2 ^ 63 - 1) then Ok v else Err range
      end
  end.

(** The messages of the handoff channel. *)
Inductive syncType := procError | procReady | procRun | procHooks | procResume.

Inductive message :=
| syncT (t : syncType)
| systemError (ECode : ErrorCode) (cause : option error).

(** [newSystemError(err)]: the structured error; [err] may be nil. *)
Definition newSystemError (err : option error) : message :=
  systemError SystemError err.

(** The child's end of the handoff channel: what has been written to it, in
    order, and whether the child has closed it. *)
Record Pipe := { sent : list message; closed : bool }.

Definition Close (p : Pipe) : Pipe := {| sent := sent p; closed := true |}.

(** The dynamic type of the [initer] interface value, with the
    configuration it was built from. *)
Inductive initer (C : Type) :=
| linuxStandardInit (config : C)
| linuxSetnsInit (config : C).
Arguments linuxStandardInit {C} config.
Arguments linuxSetnsInit {C} config.

Definition isStandard {C : Type} (i : option (initer C)) : bool :=
  match i with Some (linuxStandardInit _) => true | _ => false end.

(** What [StartInitialization] calls outside src/.  [C] is the init
    configuration read from the channel. *)
Class InitHost (C : Type) := {
  (** [newContainerInit(it, pipe)] (init_linux.go): the pair it returns,
      or a panic. *)
  newContainerInit : string -> Pipe -> outcome (option (initer C) * option error) * Pipe;
  (** [i.Init(s)]: on success the process image is replaced. *)
  Init : initer C -> Pipe -> outcome (option error) * Pipe;
  (** The error of the [Write] under [utils.WriteJSON(pipe, v)], nil when
      the message goes through. *)
  writeFault : Pipe -> message -> option error;
  (** [string(debug.Stack())]. *)
  debug_Stack : string
}.

Section Init.

Context {C : Type} `{InitHost C}.

(** [utils.WriteJSON(pipe, v)]. *)
Definition WriteJSON (pipe : Pipe) (v : message) : option error * Pipe :=
  match writeFault pipe v with
  | Some err => (Some err, pipe)
  | None => (None, {| sent := sent pipe ++ [v]; closed := closed pipe |})
  end.

(** The first deferred function (it runs last): [i] and [err] are the
    variables of [StartInitialization] when it runs. *)
Definition sendError (i : option (initer C)) (err : option error) (pipe : Pipe)
  : outcome (option error) * Pipe :=
  let sync :=
    if isStandard i then WriteJSON pipe (syncT procError) else (None, pipe) in
  match sync with
  | (Some werr, pipe) => (Panics werr, pipe)
  | (None, pipe) =>
      match WriteJSON pipe (newSystemError err) with
      | (Some werr, pipe) => (Panics werr, pipe)
      | (None, pipe) => (Returns err, Close pipe)
      end
  end.

(** The second deferred function (it runs first): [err] when it is done.
    A panic of the body is recovered into [err]; otherwise [err] is what
    the body returned. *)
Definition recoverPanic (body : outcome (option error)) : option error :=
  match body with
  | Panics e =>
      Some (Errorf ("panic from initialization: " +:+ errorString e +:+ ", "
                    +:+ debug_Stack))
  | Returns err => err
  | Execs => None
  end.

(** The body after the two [defer] statements: the value of [i] when the
    body ends, how it ends, and the channel.  Calling [Init] on a nil
    [initer] is a nil dereference, a run-time panic. *)
Definition initBody (it : string) (pipe : Pipe)
  : option (initer C) * outcome (option error) * Pipe :=
  match newContainerInit it pipe with
  | (Panics v, pipe) => (None, Panics v, pipe)
  | (Execs, pipe) => (None, Execs, pipe)
  | (Returns (i, Some err), pipe) => (i, Returns (Some err), pipe)
  | (Returns (None, None), pipe) =>
      (None, Panics (Errorf "runtime error: invalid memory address or nil pointer dereference"), pipe)
  | (Returns (Some i, None), pipe) =>
      let '(o, pipe) := Init i pipe in (Some i, o, pipe)
  end.

(** [l.StartInitialization()].  [getenv] is the environment of the process,
    [pipe] the handoff channel. *)
Definition StartInitialization (getenv : string -> string) (pipe : Pipe)
  : outcome (option error) * Pipe :=
  let fdStr := getenv "_LIBCONTAINER_INITPIPE" in
  match Atoi fdStr with
  | Err err =>
      (Returns (Some (Errorf ("error converting env var _LIBCONTAINER_INITPIPE("
                              +:+ quote fdStr +:+ ") to an int: " +:+ errorString err))),
       pipe)
  | Ok pipefd =>
      let it := getenv "_LIBCONTAINER_INITTYPE" in
      match initBody it pipe with
      | (i, Execs, pipe) => (Execs, pipe)
      | (i, body, pipe) => sendError i (recoverPanic body) pipe
      end
  end.


End Init.

(** ** list.go *)

(** [containerState], one row of the listing. *)
Record containerState := {
  row_ID : string;
  row_InitProcessPid : Z;
  row_Status : string;
  row_Bundle : string;
  row_Created : Z;
  row_Annotations : option (gmap string string);
  row_Owner : string
}.

(** An entry of [ioutil.ReadDir]: [item.Name()], [item.IsDir()] and the
    [Uid] of the [syscall.Stat_t] under [item.Sys()]. *)
Record FileInfo := { Name : string; IsDir : bool; Uid : Z }.

(** [libcontainer.Status] and its [String()]. *)
Inductive Status := Created_ | Running | Pausing | Paused | Stopped.

Definition StatusString (s : Status) : string :=
  match s with
  | Created_ => "created"
  | Running => "running"
  | Pausing => "pausing"
  | Paused => "paused"
  | Stopped => "stopped"
  end.

(** [user.User], the field the listing reads. *)
Record User := { UserName : string }.

Definition byte (n : Z) : ascii := ascii_of_nat (Z.to_nat n).

(** Go's conversion [string(r)] of an integer: the UTF-8 encoding of the
    code point, of U+FFFD when [r] is not a valid code point. *)
Definition runeString (r : Z) : string :=
  if (r <? 0) || (1114111 <? r) || ((55296 <=? r) && (r <=? 57343)) then
    String (byte 239) (String (byte 191) (String (byte 189) ""))
  else if r <? 128 then String (byte r) ""
  else if r <? 2048 then
    String (byte (192 + r / 64)) (String (byte (128 + r mod 64)) "")
  else if r <? 65536 then
    String (byte (224 + r / 4096))
      (String (byte (128 + (r / 64) mod 64)) (String (byte (128 + r mod 64)) ""))
  else
    String (byte (240 + r / 262144))
      (String (byte (128 + (r / 4096) mod 64))
         (String (byte (128 + (r / 64) mod 64)) (String (byte (128 + r mod 64)) ""))).

(** The command line: [context.GlobalString("root")]. *)
Record Context := { GlobalRoot : string }.

(** What [getContainers] calls outside src/. *)
Class ListHost (W : Type) := {
  (** [loadFactory(context)] (utils_linux.go). *)
  loadFactory : Context -> result LinuxFactory;
  (** [filepath.Abs(root)]. *)
  filepath_Abs : string -> result string;
  (** [ioutil.ReadDir(absRoot)]. *)
  ioutil_ReadDir : W -> string -> result (list FileInfo);
  (** [user.LookupUid(uid)]: Go's pair, a user and an error. *)
  user_LookupUid : Z -> User * option error;
  (** [container.Status()] and [container.State()] (container_linux.go). *)
  container_Status : W -> linuxContainer -> result Status;
  container_State : W -> linuxContainer -> result State;
  (** [utils.Annotations(labels)]: the bundle and the user annotations. *)
  utils_Annotations : list string -> string * option (gmap string string)
}.

(** How [getContainers] ends: with its Go result, or in [fatal(err)], which
    ends the process, or as a call under it ends that does not return: in
    a panic, or with the process image replaced. *)
Inductive listing :=
| Listed (r : result (list containerState))
| Fatal (err : error)
| Panicked (v : error)
| Replaced.

Section List.

Context {W : Type} `{Host W} `{ListHost W}.

(** [owner] after the lookup: the name is replaced by [string(stat.Uid)]
    when the lookup fails. *)
Definition ownerOf (item : FileInfo) : User :=
  match user_LookupUid (Uid item) with
  | (owner, Some _) => {| UserName := runeString (Uid item) |}
  | (owner, None) => owner
  end.

(** The row appended for a container that does not load. *)
Definition placeholderRow (item : FileInfo) : containerState :=
  {| row_ID := Name item;
     row_InitProcessPid := -1;
     row_Status := "-";
     row_Bundle := "-";
     row_Created := 0;
     row_Annotations := None;
     row_Owner := UserName (ownerOf item) |}.

(** The row appended for a container that loads and reports. *)
Definition stateRow (item : FileInfo) (containerStatus : Status) (st : State)
  : containerState :=
  let '(bundle, annotations) := utils_Annotations (configs.Labels (Config st)) in
  {| row_ID := ID st;
     row_InitProcessPid := InitProcessPid st;
     row_Status := StatusString containerStatus;
     row_Bundle := bundle;
     row_Created := Created st;
     row_Annotations := annotations;
     row_Owner := UserName (ownerOf item) |}.

(** [for _, item := range list]: [items] is what is left of [list], [s] the
    slice built so far. *)
Fixpoint listLoop (factory : LinuxFactory) (w : W) (items : list FileInfo)
    (s : list containerState) : outcome (result (list containerState)) :=
  match items with
  | [] => Returns (Ok s)
  | item :: rest =>
      if IsDir item then
        match Load factory w (Name item) with
        | Returns (Err _) => listLoop factory w rest (s ++ [placeholderRow item])
        | Returns (Ok container) =>
            match container_Status w container with
            | Err err => Returns (Err err)
            | Ok containerStatus =>
                match container_State w container with
                | Err err => Returns (Err err)
                | Ok st =>
                    listLoop factory w rest (s ++ [stateRow item containerStatus st])
                end
            end
        | Panics v => Panics v
        | Execs => Execs
        end
      else listLoop factory w rest s
  end.

(** [getContainers(context)]. *)
Definition getContainers (context : Context) (w : W) : listing :=
  match loadFactory context with
  | Err err => Listed (Err err)
  | Ok factory =>
      let root := GlobalRoot context in
      match filepath_Abs root with
      | Err err => Listed (Err err)
      | Ok absRoot =>
          match ioutil_ReadDir w absRoot with
          | Err err => Fatal err
          | Ok items =>
              match listLoop factory w items [] with
              | Returns r => Listed r
              | Panics v => Panicked v
              | Execs => Replaced
              end
          end
      end
  end.

End List.

(** ** Concrete configurations *)

Definition userns : configs.Namespace :=
  {| configs.Type_ := configs.NEWUSER; configs.Path_ := "" |}.

Definition idmap (container host size : Z) : configs.IDMap :=
  {| configs.ContainerID := container; configs.HostID := host; configs.Size := size |}.

(** The spec's example scenario: a single user-namespace entry and the
    mappings [{host: uid, container: 0, size: 1}] for users and groups. *)
Definition rootlessConfig (uid gid : Z) : configs.Config :=
  {| configs.Rootfs := "/run/demo/rootfs";
     configs.Hostname := "runc";
     configs.Namespaces := [userns];
     configs.Mounts := [];
     configs.UidMappings := [idmap 0 uid 1];
     configs.GidMappings := [idmap 0 gid 1];
     configs.Cgroups := None;
     configs.Labels := [] |}.

(** A user namespace is asked for and no mapping is given. *)
Definition usernsWithoutMappings : configs.Config :=
  {| configs.Rootfs := "/run/demo/rootfs";
     configs.Hostname := "runc";
     configs.Namespaces := [userns];
     configs.Mounts := [];
     configs.UidMappings := [];
     configs.GidMappings := [];
     configs.Cgroups := None;
     configs.Labels := [] |}.

(** The mappings of [rootlessConfig 1000 1000], and no user namespace. *)
Definition mappingsWithoutUserns : configs.Config :=
  {| configs.Rootfs := "/run/demo/rootfs";
     configs.Hostname := "runc";
     configs.Namespaces := [];
     configs.Mounts := [];
     configs.UidMappings := [idmap 0 1000 1];
     configs.GidMappings := [idmap 0 1000 1];
     configs.Cgroups := None;
     configs.Labels := [] |}.

(** [rootlessConfig 1000 1000] with another host name, a mount, a cgroup
    and labels. *)
Definition otherRootlessConfig : configs.Config :=
  {| configs.Rootfs := "/srv/rootfs";
     configs.Hostname := "other";
     configs.Namespaces := [{| configs.Type_ := configs.NEWPID; configs.Path_ := "" |}; userns];
     configs.Mounts := [{| configs.Source := "proc"; configs.Destination := "/proc";
                           configs.Device := "proc"; configs.Data := "" |}];
     configs.UidMappings := [idmap 0 1000 1];
     configs.GidMappings := [idmap 0 1000 1];
     configs.Cgroups := Some {| cgroupcfg.CgroupName := "c1"; cgroupcfg.Parent := "";
                                cgroupcfg.Path := ""; cgroupcfg.ScopePrefix := "";
                                cgroupcfg.Paths := None; cgroupcfg.Resources_ := None |};
     configs.Labels := ["bundle=/srv"] |}.

(** Resource limits with a block-IO weight for one device (8:0) and every
    other field at its zero value. *)
Definition blkioLimits : cgroupcfg.Resources := {|
  cgroupcfg.AllowAllDevices := None; cgroupcfg.AllowedDevices := None;
  cgroupcfg.DeniedDevices := None; cgroupcfg.Devices := None;
  cgroupcfg.Memory := 0; cgroupcfg.MemoryReservation := 0;
  cgroupcfg.MemorySwap := 0; cgroupcfg.KernelMemory := 0;
  cgroupcfg.KernelMemoryTCP := 0;
  cgroupcfg.CpuShares := 0; cgroupcfg.CpuQuota := 0; cgroupcfg.CpuPeriod := 0;
  cgroupcfg.CpuRtRuntime := 0; cgroupcfg.CpuRtPeriod := 0;
  cgroupcfg.CpusetCpus := ""; cgroupcfg.CpusetMems := ""; cgroupcfg.PidsLimit := 0;
  cgroupcfg.BlkioWeight := 0; cgroupcfg.BlkioLeafWeight := 0;
  cgroupcfg.BlkioWeightDevice :=
    Some [{| cgroupcfg.WeightMajor := 8; cgroupcfg.WeightMinor := 0;
             cgroupcfg.Weight := 500; cgroupcfg.LeafWeight := 0 |}];
  cgroupcfg.BlkioThrottleReadBpsDevice := None;
  cgroupcfg.BlkioThrottleWriteBpsDevice := None;
  cgroupcfg.BlkioThrottleReadIOPSDevice := None;
  cgroupcfg.BlkioThrottleWriteIOPSDevice := None;
  cgroupcfg.Freezer := cgroupcfg.Undefined; cgroupcfg.HugetlbLimit := None;
  cgroupcfg.OomKillDisable := false; cgroupcfg.MemorySwappiness := None;
  cgroupcfg.NetPrioIfpriomap := None; cgroupcfg.NetClsClassid := 0
|}.

Definition cgroupWith (paths : option (gmap string string))
    (r : option cgroupcfg.Resources) : cgroupcfg.Cgroup :=
  {| cgroupcfg.CgroupName := "c1"; cgroupcfg.Parent := "";
     cgroupcfg.Path := ""; cgroupcfg.ScopePrefix := "";
     cgroupcfg.Paths := paths; cgroupcfg.Resources_ := r |}.

(** [rootlessConfig 1000 1000] with the limits [blkioLimits]. *)
Definition blkioConfig : configs.Config :=
  {| configs.Rootfs := "/run/demo/rootfs";
     configs.Hostname := "runc";
     configs.Namespaces := [userns];
     configs.Mounts := [];
     configs.UidMappings := [idmap 0 1000 1];
     configs.GidMappings := [idmap 0 1000 1];
     configs.Cgroups := Some (cgroupWith None (Some blkioLimits));
     configs.Labels := [] |}.

(** [rootlessConfig 1000 1000] with a memory limit. *)
Definition memoryConfig : configs.Config :=
  {| configs.Rootfs := "/run/demo/rootfs";
     configs.Hostname := "runc";
     configs.Namespaces := [userns];
     configs.Mounts := [];
     configs.UidMappings := [idmap 0 1000 1];
     configs.GidMappings := [idmap 0 1000 1];
     configs.Cgroups :=
       Some (cgroupWith None
               (Some {|
                  cgroupcfg.AllowAllDevices := None; cgroupcfg.AllowedDevices := None;
                  cgroupcfg.DeniedDevices := None; cgroupcfg.Devices := None;
                  cgroupcfg.Memory := 1048576; cgroupcfg.MemoryReservation := 0;
                  cgroupcfg.MemorySwap := 0; cgroupcfg.KernelMemory := 0;
                  cgroupcfg.KernelMemoryTCP := 0;
                  cgroupcfg.CpuShares := 0; cgroupcfg.CpuQuota := 0;
                  cgroupcfg.CpuPeriod := 0;
                  cgroupcfg.CpuRtRuntime := 0; cgroupcfg.CpuRtPeriod := 0;
                  cgroupcfg.CpusetCpus := ""; cgroupcfg.CpusetMems := "";
                  cgroupcfg.PidsLimit := 0;
                  cgroupcfg.BlkioWeight := 0; cgroupcfg.BlkioLeafWeight := 0;
                  cgroupcfg.BlkioWeightDevice := None;
                  cgroupcfg.BlkioThrottleReadBpsDevice := None;
                  cgroupcfg.BlkioThrottleWriteBpsDevice := None;
                  cgroupcfg.BlkioThrottleReadIOPSDevice := None;
                  cgroupcfg.BlkioThrottleWriteIOPSDevice := None;
                  cgroupcfg.Freezer := cgroupcfg.Undefined;
                  cgroupcfg.HugetlbLimit := None;
                  cgroupcfg.OomKillDisable := false;
                  cgroupcfg.MemorySwappiness := None;
                  cgroupcfg.NetPrioIfpriomap := None; cgroupcfg.NetClsClassid := 0
                |}));
     configs.Labels := [] |}.

(** A rootless manager without cgroup settings, and one whose settings
    name explicit paths. *)
Definition managerWithoutCgroups : rootless.Manager :=
  {| rootless.Cgroups := None; rootless.Paths := None |}.

Definition managerWithPaths : rootless.Manager :=
  {| rootless.Cgroups :=
       Some (cgroupWith (Some {[ "memory" := "/sys/fs/cgroup/memory/c1" ]}) None);
     rootless.Paths := None |}.








(** A mount option [uid=N] or [gid=N] with [N] other than [0]. *)
Definition mountViolation (c : configs.Config) : Prop :=
  exists m opt N,
    In m (configs.Mounts c) /\ In opt (strings.Split (configs.Data m) ","%char) /\
    (opt = "uid=" +:+ N \/ opt = "gid=" +:+ N) /\ N <> "0".

(** A field of the resource limits that the walk does not skip and that
    differs from the zero value. *)
Definition limitViolation (c : configs.Config) : Prop :=
  exists cg r f,
    configs.Cgroups c = Some cg /\ cgroupcfg.Resources_ cg = Some r /\
    In f (cgroupcfg.fields r) /\
    strings.Contains (cgroupcfg.Name f) "Device" = false /\
    cgroupcfg.isDefault f = false.

(** ** Calls on one factory *)

(** The cgroup-manager constructor that [RootlessCgroups] installs. *)
Definition rootlessConstructor (config : option cgroupcfg.Cgroup)
    (paths : option (gmap string string)) : Manager :=
  rootlessManager {| rootless.Cgroups := config; rootless.Paths := paths |}.

(** A call of [Create] or [Load]; each [Create] may run under another
    effective UID and GID. *)
Inductive call :=
| callCreate (euid egid : Z) (id : string) (config : configs.Config)
| callLoad (id : string).

Section Calls.

Context {W : Type} `{Host W}.

(** The calls made one after the other on the same factory: how each
    ends (a panic of [Load] is taken to be recovered by the caller), and
    the factory and the host as the last call leaves them. *)
Fixpoint runCalls (l : LinuxFactory) (w : W) (calls : list call)
  : list (outcome (result linuxContainer)) * LinuxFactory * W :=
  match calls with
  | [] => ([], l, w)
  | callCreate euid egid id config :: rest =>
      let '(r, l', w') := Create l euid egid w id config in
      let '(rs, l'', w'') := runCalls l' w' rest in
      (Returns r :: rs, l'', w'')
  | callLoad id :: rest =>
      let '(rs, l'', w'') := runCalls l w rest in
      (Load l w id :: rs, l'', w'')
  end.

(** A configuration that passes the three validations of [Create]. *)
Definition validConfig (l : LinuxFactory) (euid egid : Z) (config : configs.Config) : Prop :=
  Validator l config = None /\
  exists rootless,
    isRootless euid egid config = (rootless, None) /\
    (rootless = true -> validate.Validate (Some config) = None).

(** The directory [containerRoot] does not exist and can be created. *)
Definition canCreateDir (w : W) (containerRoot : string) : Prop :=
  (exists err, os_Stat w containerRoot = Some err /\ IsNotExist err = true) /\
  fst (os_MkdirAll w containerRoot) = None.

(** What the factory needs of the host for a second [Create] to see the
    first: a directory that [os.MkdirAll] made is found by [os.Stat]. *)
Definition mkdirThenStat : Prop :=
  forall (w w' : W) (p : string),
    os_MkdirAll w p = (None, w') -> os_Stat w' p = None.

(** How a [Create] ends. *)
Definition succeeds (r : result linuxContainer * LinuxFactory * W) : Prop :=
  exists c, fst (fst r) = Ok c.

Definition failsWith (code : ErrorCode) (r : result linuxContainer * LinuxFactory * W) : Prop :=
  exists cause, fst (fst r) = Err (genericError code cause).

End Calls.

(** ** A concrete host *)

(** A file system as the table of its paths: a directory, a file with
    the state its contents decode to ([None]: they do not decode), or a
    file that holds the JSON literal [null]. *)
Inductive node :=
| Dir
| RegularFile (contents : option State)
| NullFile.

(** The host: the table of paths, whether the file system is mounted
    read-only, the entries of each directory as [ReadDir] lists them, and
    the pids of the running processes. *)
Record Table := {
  nodes : gmap string node;
  readOnly : bool;
  entries : gmap string (list FileInfo);
  running : list Z
}.

Definition tableStat (w : Table) (p : string) : option error :=
  match nodes w !! p with
  | Some _ => None
  | None => Some (PathError "stat" p ENOENT)
  end.

Definition tableMkdirAll (w : Table) (p : string) : option error * Table :=
  match nodes w !! p with
  | Some Dir => (None, w)
  | Some _ => (Some (PathError "mkdir" p ENOTDIR), w)
  | None =>
      if readOnly w then (Some (PathError "mkdir" p EROFS), w)
      else (None, {| nodes := <[p := Dir]> (nodes w); readOnly := readOnly w;
                    entries := entries w; running := running w |})
  end.

Definition tableOpen (w : Table) (p : string) : result node :=
  match nodes w !! p with
  | Some n => Ok n
  | None => Err (PathError "open" p ENOENT)
  end.

Definition tableDecode (f : node) : result (option State) :=
  match f with
  | RegularFile (Some st) => Ok (Some st)
  | NullFile => Ok None
  | _ => Err (Errorf "unexpected end of JSON input")
  end.

Definition tableRefresh (w : Table) (c : linuxContainer) : result containerStateKind :=
  match initProcess c with
  | Some p =>
      if existsb (Z.eqb (processPid p)) (running w) then Ok runningState
      else Ok stoppedState
  | None => Ok stoppedState
  end.

#[global] Instance tableHost : Host Table := {|
  File := node;
  os_Stat := tableStat;
  os_MkdirAll := tableMkdirAll;
  os_Open := tableOpen;
  json_Decode := tableDecode;
  filepath_Join := fun dir name => dir +:+ "/" +:+ name;
  refreshState := tableRefresh
|}.

(** A factory as [New(root)] leaves it, with a validator that accepts
    every configuration: the cgroupfs manager, criu from the path. *)
Definition newFactory (root : string) : LinuxFactory :=
  {| Root := root;
     InitPath := "/proc/self/exe";
     InitArgs := ["/usr/bin/runc"; "init"];
     CriuPath := "criu";
     Validator := fun _ => None;
     NewCgroupsManager := fun config paths => fsManager config paths |}.

(** /run/demo exists and is empty. *)
Definition demoHost : Table :=
  {| nodes := {[ "/run/demo" := Dir ]};
     readOnly := false;
     entries := {[ "/run/demo" := [] ]};
     running := [] |}.

(** The same, mounted read-only. *)
Definition readOnlyHost : Table :=
  {| nodes := {[ "/run/demo" := Dir ]};
     readOnly := true;
     entries := {[ "/run/demo" := [] ]};
     running := [] |}.

(** /run/demo with the directory of the container c1. *)
Definition hostWithC1 : Table :=
  {| nodes := {[ "/run/demo" := Dir; "/run/demo/c1" := Dir ]};
     readOnly := false;
     entries := {[ "/run/demo" := [{| Name := "c1"; IsDir := true; Uid := 1000 |}] ]};
     running := [] |}.

(** A configuration without user namespace, as root runs it. *)
Definition rootConfig : configs.Config :=
  {| configs.Rootfs := "/run/demo/rootfs";
     configs.Hostname := "runc";
     configs.Namespaces := [{| configs.Type_ := configs.NEWPID; configs.Path_ := "" |}];
     configs.Mounts := [];
     configs.UidMappings := [];
     configs.GidMappings := [];
     configs.Cgroups := Some (cgroupWith None None);
     configs.Labels := [] |}.

(** ** A concrete init process *)

(** [newContainerInit] reads the configuration and selects the init by its
    type; [Init] reports readiness to the parent and then fails to
    execute the user's program; a write on a closed channel fails. *)
#[global] Instance demoInit : InitHost unit := {|
  newContainerInit := fun it pipe =>
    if String.eqb it "standard" then (Returns (Some (linuxStandardInit tt), None), pipe)
    else if String.eqb it "setns" then (Returns (Some (linuxSetnsInit tt), None), pipe)
    else (Returns (None, Some (Errorf ("unknown init type " +:+ quote it))), pipe);
  Init := fun i pipe =>
    (Returns (Some (Errorf "exec user process: no such file or directory")),
     {| sent := sent pipe ++ [syncT procReady]; closed := closed pipe |});
  writeFault := fun pipe v =>
    if closed pipe then Some (Errorf "write |1: file already closed") else None;
  debug_Stack := "goroutine 1 [running]"
|}.




Section InitDefinitions.

Context {C : Type} `{InitHost C}.



End InitDefinitions.

(** ** A concrete listing *)

Definition c0State : State :=
  {| ID := "c0";
     InitProcessPid := 4242;
     InitProcessStartTime := "12345";
     Created := 1488000000;
     Config := rootConfig;
     Rootless := false;
     CgroupPaths := Some {[ "memory" := "/sys/fs/cgroup/memory/c0" ]};
     ExternalDescriptors := ["/dev/null"; "/dev/null"; "/dev/null"] |}.

(** /run/demo with the running container c0, whose state was saved by
    root, and the directory broken, whose state file does not decode. *)
Definition hostWithC0 : Table :=
  {| nodes := {[ "/run/demo" := Dir;
                 "/run/demo/broken" := Dir;
                 "/run/demo/broken/state.json" := RegularFile None;
                 "/run/demo/c0" := Dir;
                 "/run/demo/c0/state.json" := RegularFile (Some c0State) ]};
     readOnly := false;
     entries := {[ "/run/demo" := [{| Name := "broken"; IsDir := true; Uid := 1000 |};
                                   {| Name := "c0"; IsDir := true; Uid := 0 |}] ]};
     running := [4242] |}.

Definition tableReadDir (w : Table) (dir : string) : result (list FileInfo) :=
  match entries w !! dir with
  | Some items => Ok items
  | None => Err (PathError "open" dir ENOENT)
  end.

Definition tableStatus (w : Table) (c : linuxContainer) : result Status :=
  match state c with
  | runningState => Ok Running
  | pausedState => Ok Paused
  | createdState => Ok Created_
  | _ => Ok Stopped
  end.

Definition tableState (w : Table) (c : linuxContainer) : result State :=
  match initProcess c with
  | Some p =>
      Ok {| ID := id c; InitProcessPid := processPid p;
            InitProcessStartTime := processStartTime p;
            Created := created c; Config := config c; Rootless := rootless_ c;
            CgroupPaths := None; ExternalDescriptors := fds p |}
  | None =>
      Ok {| ID := id c; InitProcessPid := 0; InitProcessStartTime := "";
            Created := created c; Config := config c; Rootless := rootless_ c;
            CgroupPaths := None; ExternalDescriptors := [] |}
  end.

#[global] Instance tableList : ListHost Table := {|
  loadFactory := fun context => Ok (newFactory (GlobalRoot context));
  filepath_Abs := fun root => Ok root;
  ioutil_ReadDir := tableReadDir;
  user_LookupUid := fun uid =>
    if uid =? 0 then ({| UserName := "root" |}, None)
    else if uid =? 1000 then ({| UserName := "demo" |}, None)
    else ({| UserName := "" |}, Some (Errorf "no matching entries in passwd file"));
  container_Status := tableStatus;
  container_State := tableState;
  utils_Annotations := fun labels => ("/srv/bundle", None)
|}.

Section ListDefinitions.

Context {W : Type} `{Host W} `{ListHost W}.

(** The row that the loop appends for a directory entry, if it goes on:
    [None] when the container loads and [Status] or [State] fails, and
    when [Load] does not return. *)
Definition rowOf (factory : LinuxFactory) (w : W) (item : FileInfo)
  : option containerState :=
  match Load factory w (Name item) with
  | Returns (Err _) => Some (placeholderRow item)
  | Returns (Ok container) =>
      match container_Status w container, container_State w container with
      | Ok containerStatus, Ok st => Some (stateRow item containerStatus st)
      | _, _ => None
      end
  | _ => None
  end.

(** The rows of the directory entries among [items], in order. *)
Definition rowsOf (factory : LinuxFactory) (w : W) (items : list FileInfo)
  : list containerState :=
  flat_map (fun item =>
              if IsDir item then
                match rowOf factory w item with Some row => [row] | None => [] end
              else [])
           items.

(** The container of a directory entry loads and reports its status and
    state. *)
Definition reports (factory : LinuxFactory) (w : W) (item : FileInfo) : Prop :=
  exists container containerStatus st,
    Load factory w (Name item) = Returns (Ok container) /\
    container_Status w container = Ok containerStatus /\
    container_State w container = Ok st.

Definition failsToLoad (factory : LinuxFactory) (w : W) (item : FileInfo) : Prop :=
  exists err, Load factory w (Name item) = Returns (Err err).

End ListDefinitions.

(** [isRootless] returns an error (and [false]). *)
Definition isError (r : bool * option error) : Prop :=
  exists err, r = (false, Some err).

(** ** Further definitions for the properties *)

(** The bytes that an id may consist of, written out. *)
Definition idAlphabet : string :=
  "0123456789ABCDEFGHIJKLMNOPQRSTUVWXYZ_abcdefghijklmnopqrstuvwxyz+,-.".

Definition inAlphabet (c : ascii) : bool :=
  existsb (Ascii.eqb c) (list_ascii_of_string idAlphabet).

(** What the rootless validator reads of a configuration: the data of the
    mounts, in order, and the resource limits. *)
Definition mountData (c : configs.Config) : list string :=
  map configs.Data (configs.Mounts c).

Definition resourceLimits (c : configs.Config) : option cgroupcfg.Resources :=
  match configs.Cgroups c with
  | Some cg => cgroupcfg.Resources_ cg
  | None => None
  end.

(** [rootlessConfig 1000 1000] with a cgroup configuration that names an
    explicit path for the memory subsystem, and no resource limits. *)
Definition pathsConfig : configs.Config :=
  {| configs.Rootfs := "/run/demo/rootfs";
     configs.Hostname := "runc";
     configs.Namespaces := [userns];
     configs.Mounts := [];
     configs.UidMappings := [idmap 0 1000 1];
     configs.GidMappings := [idmap 0 1000 1];
     configs.Cgroups :=
       Some (cgroupWith (Some {[ "memory" := "/sys/fs/cgroup/memory/c1" ]}) None);
     configs.Labels := [] |}.

(** A field that the walk of [cgroup] passes over: its name contains
    [Device], or it has its zero value. *)
Definition passedOver (f : cgroupcfg.Field) : Prop :=
  strings.Contains (cgroupcfg.Name f) "Device" = true \/ cgroupcfg.isDefault f = true.

Section FactoryViews.

Context {W : Type} `{Host W}.

(** The container that [Load] builds from the state it read, before it
    reconciles it with the host. *)
Definition loadedContainer (l : LinuxFactory) (id : string) (st : State)
  : linuxContainer :=
  {| id := id;
     root := filepath_Join (Root l) id;
     config := Config st;
     cgroupManager :=
       NewCgroupsManager l (configs.Cgroups (Config st)) (CgroupPaths st);
     initPath := InitPath l;
     initArgs := InitArgs l;
     criuPath := CriuPath l;
     initProcess := Some {| processPid := InitProcessPid st;
                            processStartTime := InitProcessStartTime st;
                            fds := ExternalDescriptors st |};
     rootless_ := Rootless st;
     created := Created st;
     state := loadedState |}.

(** The validations and the host calls of a [Create] all went through. *)
Definition createPassed (l : LinuxFactory) (euid egid : Z) (w : W) (id : string)
    (config : configs.Config) (rootless : bool) (w' : W) : Prop :=
  Root l <> "" /\
  validateID l id = None /\
  Validator l config = None /\
  isRootless euid egid config = (rootless, None) /\
  (rootless = true -> validate.Validate (Some config) = None) /\
  (exists err, os_Stat w (filepath_Join (Root l) id) = Some err /\ IsNotExist err = true) /\
  os_MkdirAll w (filepath_Join (Root l) id) = (None, w').

End FactoryViews.

(** The error kinds that [Create] returns. *)
Definition createErrorCode (code : ErrorCode) : bool :=
  match code with
  | ConfigInvalid | InvalidIdFormat | IdInUse | SystemError => true
  | ContainerNotExists => false
  end.

(** A state file whose [ID] differs from the name of its directory, saved
    for a rootless container. *)
Definition renamedState : State :=
  {| ID := "original";
     InitProcessPid := 77;
     InitProcessStartTime := "999";
     Created := 1488000001;
     Config := rootlessConfig 1000 1000;
     Rootless := true;
     CgroupPaths := None;
     ExternalDescriptors := [] |}.

Definition hostWithCopy : Table :=
  {| nodes := {[ "/run/demo" := Dir;
                 "/run/demo/copy" := Dir;
                 "/run/demo/copy/state.json" := RegularFile (Some renamedState) ]};
     readOnly := false;
     entries := {[ "/run/demo" := [{| Name := "copy"; IsDir := true; Uid := 1000 |}] ]};
     running := [] |}.

(** ** libcontainer/factory_linux.go: New and its option funcs *)

(** What [New] and the option funcs call outside src/. *)
Class NewHost (W : Type) := {
  (** [os.Args[0]]. *)
  os_Args0 : string;
  (** [filepath.Base(name)]. *)
  filepath_Base : string -> string;
  (** [exec.LookPath(name)]. *)
  exec_LookPath : W -> string -> result string;
  (** [filepath.Abs(name)], which reads the working directory. *)
  path_Abs : W -> string -> result string;
  (** [mount.Mounted(dir)]. *)
  mount_Mounted : W -> string -> result bool;
  (** [syscall.Mount("tmpfs", dir, "tmpfs", 0, "")]. *)
  syscall_MountTmpfs : W -> string -> option error * W;
  (** [validate.New()]. *)
  validate_New : configs.Config -> option error
}.

(** An option func, a function from a pointer to the factory to an error: it may change the factory
    and the host, and returns an error or panics. *)
Definition optionFunc (W : Type) : Type :=
  LinuxFactory -> W -> outcome (LinuxFactory * option error) * W.

Definition setInit (l : LinuxFactory) (path : string) (args : list string)
  : LinuxFactory :=
  {| Root := Root l; InitPath := path; InitArgs := args;
     CriuPath := CriuPath l; Validator := Validator l;
     NewCgroupsManager := NewCgroupsManager l |}.

(** The three cgroup option funcs, which touch the factory only. *)
Inductive cgroupChoice := useSystemd | useCgroupfs | useRootless.

Definition cgroupConstructor (ch : cgroupChoice)
  : option cgroupcfg.Cgroup -> option (gmap string string) -> Manager :=
  match ch with
  | useSystemd => fun config paths => systemdManager config paths
  | useCgroupfs => fun config paths => fsManager config paths
  | useRootless => rootlessConstructor
  end.

Section New.

Context {W : Type} `{Host W} `{NewHost W}.

Definition cgroupOption (ch : cgroupChoice) : optionFunc W :=
  fun l w =>
    match ch with
    | useSystemd => (Returns (SystemdCgroups l), w)
    | useCgroupfs => (Returns (Cgroupfs l), w)
    | useRootless => (Returns (RootlessCgroups l), w)
    end.

(** [InitArgs(args...)].  [args[0]] of an empty list is an index out of
    range, a run-time panic. *)
Definition InitArgs_ (args : list string) : optionFunc W :=
  fun l w =>
    match args with
    | [] => (Panics (Errorf "runtime error: index out of range"), w)
    | name :: rest =>
        let resolved :=
          if String.eqb (filepath_Base name) name then
            match exec_LookPath w name with
            | Ok lp => Ok lp
            | Err _ => Ok name
            end
          else
            match path_Abs w name with
            | Err err => Err err
            | Ok abs => Ok abs
            end in
        match resolved with
        | Err err => (Returns (l, Some err), w)
        | Ok name => (Returns (setInit l "/proc/self/exe" (name :: rest), None), w)
        end
    end.

(** [InitPath(path, args...)]. *)
Definition InitPath_ (path : string) (args : list string) : optionFunc W :=
  fun l w => (Returns (setInit l path args, None), w).

(** [TmpfsRoot]. *)
Definition TmpfsRoot : optionFunc W :=
  fun l w =>
    match mount_Mounted w (Root l) with
    | Err err => (Returns (l, Some err), w)
    | Ok mounted =>
        if negb mounted then
          match syscall_MountTmpfs w (Root l) with
          | (Some err, w') => (Returns (l, Some err), w')
          | (None, w') => (Returns (l, None), w')
          end
        else (Returns (l, None), w)
    end.

(** [for _, opt := range options]: the first error ends the loop. *)
Fixpoint applyOptions (options : list (optionFunc W)) (l : LinuxFactory) (w : W)
  : outcome (result LinuxFactory) * W :=
  match options with
  | [] => (Returns (Ok l), w)
  | opt :: rest =>
      match opt l w with
      | (Returns (l', Some err), w') => (Returns (Err err), w')
      | (Returns (l', None), w') => applyOptions rest l' w'
      | (Panics v, w') => (Panics v, w')
      | (Execs, w') => (Execs, w')
      end
  end.

(** [New(root, options...)].  The factory literal leaves
    [NewCgroupsManager] nil; [Cgroupfs(l)] sets it before anything reads
    it, so the literal stands here with that constructor.  The error of
    the first [InitArgs] is dropped. *)
Definition New (root : string) (options : list (optionFunc W)) (w : W)
  : outcome (result LinuxFactory) * W :=
  match (if negb (String.eqb root "") then os_MkdirAll w root else (None, w)) with
  | (Some err, w') => (Returns (Err (newGenericError err SystemError)), w')
  | (None, w') =>
      let l := {| Root := root; InitPath := ""; InitArgs := [];
                  CriuPath := "criu"; Validator := validate_New;
                  NewCgroupsManager := fun config paths => fsManager config paths |} in
      match InitArgs_ [os_Args0; "init"] l w' with
      | (Returns (l, _), w') =>
          let l := fst (Cgroupfs l) in
          applyOptions options l w'
      | (Panics v, w') => (Panics v, w')
      | (Execs, w') => (Execs, w')
      end
  end.

(** [l.Type()]. *)
Definition Type_ (l : LinuxFactory) : string := "libcontainer".

(** An option func that leaves the root of the factory alone. *)
Definition keepsRoot (opt : optionFunc W) : Prop :=
  forall l w l' e w', opt l w = (Returns (l', e), w') -> Root l' = Root l.


End New.

(** ** A concrete machine *)

(** The host of [Table] together with the directories that carry a tmpfs,
    the programs found on the path, and the working directory ([None]:
    it cannot be read). *)
Record Machine := {
  table : Table;
  tmpfs : list string;
  programs : gmap string string;
  cwd : option string
}.

Definition withTable (m : Machine) (t : Table) : Machine :=
  {| table := t; tmpfs := tmpfs m; programs := programs m; cwd := cwd m |}.

#[global] Instance machineHost : Host Machine := {|
  File := node;
  os_Stat := fun m p => tableStat (table m) p;
  os_MkdirAll := fun m p =>
    let '(e, t) := tableMkdirAll (table m) p in (e, withTable m t);
  os_Open := fun m p => tableOpen (table m) p;
  json_Decode := tableDecode;
  filepath_Join := fun dir name => dir +:+ "/" +:+ name;
  refreshState := fun m c => tableRefresh (table m) c
|}.

(** [filepath.Base] of a path: what follows the last slash. *)
Fixpoint baseAcc (cur : string) (s : string) : string :=
  match s with
  | EmptyString => String.rev cur
  | String c s' =>
      if Ascii.eqb c "/"%char then baseAcc EmptyString s'
      else baseAcc (String c cur) s'
  end.

#[global] Instance machineNew : NewHost Machine := {|
  os_Args0 := "runc";
  filepath_Base := baseAcc EmptyString;
  exec_LookPath := fun m name =>
    match programs m !! name with
    | Some p => Ok p
    | None => Err (Errorf ("exec: " +:+ quote name +:+ ": executable file not found in $PATH"))
    end;
  path_Abs := fun m name =>
    match cwd m with
    | Some dir => Ok (dir +:+ "/" +:+ name)
    | None => Err (PathError "getwd" "." ENOENT)
    end;
  mount_Mounted := fun m dir => Ok (existsb (String.eqb dir) (tmpfs m));
  syscall_MountTmpfs := fun m dir =>
    match nodes (table m) !! dir with
    | Some Dir => (None, {| table := table m; tmpfs := dir :: tmpfs m;
                            programs := programs m; cwd := cwd m |})
    | _ => (Some (PathError "mount" dir ENOENT), m)
    end;
  validate_New := fun _ => None
|}.

(** A machine with runc on the path and an empty /run. *)
Definition demoMachine : Machine :=
  {| table := {| nodes := {[ "/run" := Dir ]}; readOnly := false;
                 entries := {[ "/run" := [] ]}; running := [] |};
     tmpfs := [];
     programs := {[ "runc" := "/usr/bin/runc" ]};
     cwd := Some "/home/demo" |}.

(** ** Further concrete hosts *)


(** The listing host of [tableList] on which a container that is not
    running cannot report its status. *)
Definition strictList : ListHost Table := {|
  loadFactory := fun context => Ok (newFactory (GlobalRoot context));
  filepath_Abs := fun root => Ok root;
  ioutil_ReadDir := tableReadDir;
  user_LookupUid := fun uid =>
    if uid =? 0 then ({| UserName := "root" |}, None)
    else ({| UserName := "" |}, Some (Errorf "no matching entries in passwd file"));
  container_Status := fun w c =>
    match state c with
    | runningState => Ok Running
    | _ => Err (Errorf "open /sys/fs/cgroup/freezer/freezer.state: permission denied")
    end;
  container_State := tableState;
  utils_Annotations := fun labels => ("/srv/bundle", None)
|}.

(** /run/demo with the running container c0, the stopped container copy,
    a stray file, and the directory broken. *)
Definition crowdedHost : Table :=
  {| nodes := {[ "/run/demo" := Dir;
                 "/run/demo/broken" := Dir;
                 "/run/demo/c0" := Dir;
                 "/run/demo/c0/state.json" := RegularFile (Some c0State);
                 "/run/demo/copy" := Dir;
                 "/run/demo/copy/state.json" := RegularFile (Some renamedState);
                 "/run/demo/notes.txt" := RegularFile None ]};
     readOnly := false;
     entries := {[ "/run/demo" := [{| Name := "broken"; IsDir := true; Uid := 65 |};
                                   {| Name := "c0"; IsDir := true; Uid := 0 |};
                                   {| Name := "copy"; IsDir := true; Uid := 1000 |};
                                   {| Name := "notes.txt"; IsDir := false; Uid := 0 |}] ]};
     running := [4242] |}.

(** /run/demo with the running container c0 and the directory void,
    whose state file holds the JSON literal [null]. *)
Definition hostWithNull : Table :=
  {| nodes := {[ "/run/demo" := Dir;
                 "/run/demo/c0" := Dir;
                 "/run/demo/c0/state.json" := RegularFile (Some c0State);
                 "/run/demo/void" := Dir;
                 "/run/demo/void/state.json" := NullFile ]};
     readOnly := false;
     entries := {[ "/run/demo" := [{| Name := "c0"; IsDir := true; Uid := 0 |};
                                   {| Name := "void"; IsDir := true; Uid := 0 |}] ]};
     running := [4242] |}.

Section ListViews.

Context {W : Type} `{Host W} `{ListHost W}.

(** A row of the listing belongs to a directory entry: it shows the owner
    of the entry and is the placeholder of a container that does not load
    or the row of one that loads and reports. *)
Definition rowFor (factory : LinuxFactory) (w : W) (item : FileInfo)
    (row : containerState) : Prop :=
  row_Owner row = UserName (ownerOf item) /\
  ((failsToLoad factory w item /\ row = placeholderRow item) \/
   exists container containerStatus st,
     Load factory w (Name item) = Returns (Ok container) /\
     container_Status w container = Ok containerStatus /\
     container_State w container = Ok st /\
     row = stateRow item containerStatus st).

(** The container of a directory entry loads and then fails to report its
    status or its state, with [err]. *)
Definition failsToReport (factory : LinuxFactory) (w : W) (item : FileInfo)
    (err : error) : Prop :=
  exists container,
    Load factory w (Name item) = Returns (Ok container) /\
    (container_Status w container = Err err \/
     exists containerStatus,
       container_Status w container = Ok containerStatus /\
       container_State w container = Err err).

End ListViews.

(** How often a spec asks for a user namespace. *)
Definition userNamespaces (s : specs.Spec) : nat :=
  List.length
    (List.filter (fun n => String.eqb (specs.Type_ n) specs.UserNamespace)
                 (specs.Namespaces (specs.Linux_ s))).

(** Whether a mount option is one that [ToRootless] removes. *)
Definition idOption (opt : string) : bool :=
  strings.HasPrefix opt "gid=" || strings.HasPrefix opt "uid=".

(** The mount of the result belongs to the mount of the spec: same
    destination, type and source, and of its options, in order, those
    that are no [uid=] or [gid=] option. *)
Definition strippedFrom (m m' : specs.Mount) : Prop :=
  specs.Destination m' = specs.Destination m /\
  specs.MountType m' = specs.MountType m /\
  specs.Source m' = specs.Source m /\
  specs.Options m' = List.filter (fun opt => negb (idOption opt)) (specs.Options m).

(** * Properties *)

(** ** isRootless *)

Lemma isRootless_HostUID_error euid egid c e :
  configs.HostUID c = Err e -> isRootless euid egid c = (false, Some e).
Proof. intros Hu. unfold isRootless. now rewrite Hu. Qed.

Lemma isRootless_root euid egid c u :
  euid = 0 -> configs.HostUID c = Ok u ->
  isRootless euid egid c =
    match configs.HostGID c with
    | Err e => (false, Some e)
    | Ok _ => (false, None)
    end.
Proof.
  intros -> Hu. unfold isRootless. rewrite Hu. simpl.
  now destruct (configs.HostGID c).
Qed.

(** The result of a non-root invocation is an error or [(true, nil)]. *)
Lemma isRootless_nonroot_shape euid egid c :
  euid <> 0 ->
  isError (isRootless euid egid c) \/ isRootless euid egid c = (true, None).
Proof.
  intros Hne. unfold isRootless, isError.
  destruct (configs.HostUID c) as [u|e]; [|eauto].
  destruct (euid =? 0) eqn:E0; [apply Z.eqb_eq in E0; lia|]. simpl.
  destruct (configs.Contains _ _); simpl; [|eauto].
  destruct (u =? euid); simpl; [|eauto].
  destruct (configs.HostGID c) as [g|e]; [|eauto].
  destruct (g =? egid); simpl; [|eauto].
  repeat match goal with
         | |- context [if ?b then _ else _] => destruct b; simpl; eauto
         end.
Qed.

Lemma not_true_is_error euid egid c :
  euid <> 0 -> isRootless euid egid c <> (true, None) ->
  isError (isRootless euid egid c).
Proof.
  intros Hne Hnt. destruct (isRootless_nonroot_shape euid egid c Hne); tauto.
Qed.

(** Exactly one mapping, of size 1: the negation of the test made on the
    mappings. *)
Lemma one_mapping (l : list configs.IDMap) :
  negb (Z.of_nat (length l) =? 1) ||
  negb (match l with m :: _ => configs.Size m =? 1 | [] => false end) = false ->
  exists m, l = [m] /\ configs.Size m = 1.
Proof.
  intros Hb. apply orb_false_elim in Hb. destruct Hb as [Hl Hs].
  apply negb_false_iff in Hl, Hs. apply Z.eqb_eq in Hl.
  destruct l as [|m [|m' l]]; simpl in Hl; try lia.
  exists m. split; [reflexivity|]. now apply Z.eqb_eq.
Qed.

(** What [(true, nil)] requires. *)
Lemma isRootless_true_inv euid egid c :
  isRootless euid egid c = (true, None) ->
  euid <> 0 /\
  configs.Contains (configs.Namespaces c) configs.NEWUSER = true /\
  configs.HostUID c = Ok euid /\
  configs.HostGID c = Ok egid /\
  (exists m, configs.UidMappings c = [m] /\ configs.Size m = 1) /\
  (exists m, configs.GidMappings c = [m] /\ configs.Size m = 1).
Proof.
  unfold isRootless.
  destruct (configs.HostUID c) as [u|e]; [|discriminate].
  destruct (euid =? 0) eqn:E0; simpl.
  - destruct (configs.HostGID c); discriminate.
  - destruct (configs.Contains _ _); simpl; [|discriminate].
    destruct (u =? euid) eqn:Eu; simpl; [|discriminate].
    destruct (configs.HostGID c) as [g|e]; [|discriminate].
    destruct (g =? egid) eqn:Eg; simpl; [|discriminate].
    match goal with |- context [if ?b then _ else _] => destruct b eqn:EU end;
      [discriminate|].
    match goal with |- context [if ?b then _ else _] => destruct b eqn:EG end;
      [discriminate|].
    intros _.
    apply Z.eqb_neq in E0. apply Z.eqb_eq in Eu, Eg. subst.
    apply one_mapping in EU, EG. repeat split; assumption.
Qed.

(** C1 (as amended): the case analysis of [isRootless].  An error of the
    host-side root UID lookup is returned whatever the effective UID is;
    effective UID 0 gives [(false, nil)] when both host-side lookups
    resolve, and the GID lookup's error otherwise; effective UID not 0
    gives an error when the user namespace is missing, when the host-side
    root UID is not the effective UID, when there is not exactly one UID
    mapping and one GID mapping or a mapping has a size other than 1, and
    when the host-side root GID is not the effective GID; in every other
    case the result is [(true, nil)]. *)
Theorem isRootless_case_analysis (euid egid : Z) (c : configs.Config) :
  (forall e, configs.HostUID c = Err e -> isRootless euid egid c = (false, Some e)) /\
  (forall u e, euid = 0 -> configs.HostUID c = Ok u -> configs.HostGID c = Err e ->
     isRootless euid egid c = (false, Some e)) /\
  (forall u g, euid = 0 -> configs.HostUID c = Ok u -> configs.HostGID c = Ok g ->
     isRootless euid egid c = (false, None)) /\
  (euid <> 0 -> configs.Contains (configs.Namespaces c) configs.NEWUSER = false ->
     isError (isRootless euid egid c)) /\
  (euid <> 0 -> configs.HostUID c <> Ok euid -> isError (isRootless euid egid c)) /\
  (euid <> 0 ->
     (length (configs.UidMappings c) <> 1%nat \/ length (configs.GidMappings c) <> 1%nat \/
      exists m, (In m (configs.UidMappings c) \/ In m (configs.GidMappings c)) /\
                configs.Size m <> 1) ->
     isError (isRootless euid egid c)) /\
  (euid <> 0 -> configs.HostGID c <> Ok egid -> isError (isRootless euid egid c)) /\
  (euid <> 0 ->
     configs.Contains (configs.Namespaces c) configs.NEWUSER = true ->
     configs.HostUID c = Ok euid -> configs.HostGID c = Ok egid ->
     length (configs.UidMappings c) = 1%nat -> length (configs.GidMappings c) = 1%nat ->
     (forall m, In m (configs.UidMappings c) \/ In m (configs.GidMappings c) ->
                configs.Size m = 1) ->
     isRootless euid egid c = (true, None)).
Proof.
  split; [intros e; apply isRootless_HostUID_error|].
  split; [intros u e He Hu Hg; rewrite (isRootless_root _ _ _ u He Hu), Hg; reflexivity|].
  split; [intros u g He Hu Hg; rewrite (isRootless_root _ _ _ u He Hu), Hg; reflexivity|].
  split; [intros Hne Hns; apply not_true_is_error; [assumption|];
          intros Ht; apply isRootless_true_inv in Ht; destruct Ht as (_ & Hc & _);
          congruence|].
  split; [intros Hne Hu; apply not_true_is_error; [assumption|];
          intros Ht; apply isRootless_true_inv in Ht; tauto|].
  split.
  { intros Hne Hshape. apply not_true_is_error; [assumption|].
    intros Ht. apply isRootless_true_inv in Ht.
    destruct Ht as (_ & _ & _ & _ & (mu & Hmu & Hsu) & (mg & Hmg & Hsg)).
    rewrite Hmu, Hmg in Hshape. simpl in Hshape.
    destruct Hshape as [Hl | [Hl | (m & [[Hm | []] | [Hm | []]] & Hs)]];
      try congruence; subst; congruence. }
  split; [intros Hne Hg; apply not_true_is_error; [assumption|];
          intros Ht; apply isRootless_true_inv in Ht; tauto|].
  intros Hne Hns Hu Hg Hlu Hlg Hsz. unfold isRootless.
  rewrite Hu, Hg, Hns. apply Z.eqb_neq in Hne. rewrite Hne. simpl.
  rewrite !Z.eqb_refl. simpl.
  destruct (configs.UidMappings c) as [|mu [|? ?]]; try discriminate.
  destruct (configs.GidMappings c) as [|mg [|? ?]]; try discriminate.
  rewrite (Hsz mu), (Hsz mg) by (simpl; auto). reflexivity.
Qed.

(** The last case of the analysis at the spec's example scenario:
    effective UID and GID 1000, one user namespace, mappings of size 1 to
    1000. *)
Lemma isRootless_case_analysis_witness :
  isRootless 1000 1000 (rootlessConfig 1000 1000) = (true, None).
Proof.
  apply (isRootless_case_analysis 1000 1000 (rootlessConfig 1000 1000));
    try reflexivity; try lia.
  intros m [[<- | []] | [<- | []]]; reflexivity.
Defined.

(** C1, counterexample: invoked with effective UID 0 on a configuration
    that asks for a user namespace and gives no mapping, [isRootless]
    returns the error of [HostUID], not [(false, nil)]. *)
Lemma isRootless_root_not_always_nil :
  isRootless 0 0 usernsWithoutMappings =
    (false, Some (Errorf "User namespaces enabled, but no user mappings found.")) /\
  isRootless 0 0 usernsWithoutMappings <> (false, None).
Proof. split; [reflexivity | discriminate]. Qed.

(** C7 (as amended): [isRootless] is a function of the effective UID, the
    effective GID, whether the configuration has a user-namespace entry,
    the UID mappings and the GID mappings. *)
Theorem isRootless_depends_on (euid egid : Z) (c1 c2 : configs.Config) :
  configs.Contains (configs.Namespaces c1) configs.NEWUSER =
    configs.Contains (configs.Namespaces c2) configs.NEWUSER ->
  configs.UidMappings c1 = configs.UidMappings c2 ->
  configs.GidMappings c1 = configs.GidMappings c2 ->
  isRootless euid egid c1 = isRootless euid egid c2.
Proof.
  intros Hns Hu Hg.
  unfold isRootless, configs.HostUID, configs.HostGID.
  rewrite Hns, Hu, Hg. reflexivity.
Qed.

(** Two configurations that differ in root file system, host name,
    namespaces, mounts, cgroup and labels, and agree on the user namespace
    and the mappings: the results are equal. *)
Lemma isRootless_depends_on_witness :
  rootlessConfig 1000 1000 <> otherRootlessConfig /\
  isRootless 1000 1000 (rootlessConfig 1000 1000) =
    isRootless 1000 1000 otherRootlessConfig.
Proof.
  split; [discriminate|].
  apply (isRootless_depends_on 1000 1000 (rootlessConfig 1000 1000) otherRootlessConfig);
    reflexivity.
Defined.

(** C7, counterexample: two configurations with the same UID and GID
    mappings, invoked with the same effective UID and GID, one with a
    user-namespace entry and one without: the results differ. *)
Lemma isRootless_reads_namespaces :
  configs.UidMappings (rootlessConfig 1000 1000) = configs.UidMappings mappingsWithoutUserns /\
  configs.GidMappings (rootlessConfig 1000 1000) = configs.GidMappings mappingsWithoutUserns /\
  isRootless 1000 1000 (rootlessConfig 1000 1000) = (true, None) /\
  isRootless 1000 1000 mappingsWithoutUserns =
    (false, Some (Errorf "rootless containers require user namespaces")) /\
  isRootless 1000 1000 (rootlessConfig 1000 1000) <>
    isRootless 1000 1000 mappingsWithoutUserns.
Proof. repeat split; discriminate. Qed.

(** ** RootlessValidator *)

Lemma prefix_app (p s : string) :
  String.prefix p s = true <-> exists r, s = p +:+ r.
Proof.
  revert s. induction p as [|a p IH]; intros s.
  - destruct s; simpl; split; eauto.
  - destruct s as [|b s]; simpl.
    + split; [discriminate | intros [r Hr]; discriminate].
    + destruct (ascii_dec a b) as [->|Hab].
      * rewrite IH. split; intros [r Hr]; exists r; cbv [append] in *; fold append in *; congruence.
      * split; [discriminate | intros [r Hr]; cbv [append] in Hr; fold append in Hr; congruence].
Qed.

(** An option is refused exactly when it reads [uid=N] or [gid=N] with [N]
    other than [0]. *)
Lemma mountOption_error_iff (opt : string) :
  validate.mountOption opt <> None <->
  exists N, (opt = "uid=" +:+ N \/ opt = "gid=" +:+ N) /\ N <> "0".
Proof.
  unfold validate.mountOption, strings.HasPrefix.
  destruct (String.prefix "uid=" opt) eqn:Pu; simpl.
  - apply prefix_app in Pu. destruct Pu as [N ->].
    destruct (String.eqb_spec ("uid=" +:+ N) "uid=0") as [E|E]; simpl.
    + cbv [append] in E. injection E as ->. split; [congruence|].
      intros (N & [H | H] & HN); cbv [append] in H; congruence.
    + split; [intros _ | discriminate].
      exists N. split; [now left | intros ->; apply E; reflexivity].
  - destruct (String.prefix "gid=" opt) eqn:Pg; simpl.
    + apply prefix_app in Pg. destruct Pg as [N ->].
      destruct (String.eqb_spec ("gid=" +:+ N) "gid=0") as [E|E]; simpl.
      * cbv [append] in E. injection E as ->. split; [congruence|].
        intros (N & [H | H] & HN); cbv [append] in H; congruence.
      * split; [intros _ | discriminate].
        exists N. split; [now right | intros ->; apply E; reflexivity].
    + split; [congruence|].
      intros (N & [-> | ->] & _).
      * assert (String.prefix "uid=" ("uid=" +:+ N) = true) by (apply prefix_app; eauto).
        congruence.
      * assert (String.prefix "gid=" ("gid=" +:+ N) = true) by (apply prefix_app; eauto).
        congruence.
Qed.

Lemma mountOptions_error_iff (opts : list string) :
  validate.mountOptions opts <> None <->
  exists opt, In opt opts /\ validate.mountOption opt <> None.
Proof.
  induction opts as [|o opts IH]; simpl.
  - split; [congruence | intros (? & [] & _)].
  - destruct (validate.mountOption o) eqn:Eo.
    + split; [intros _; exists o; split; [now left | congruence] | discriminate].
    + rewrite IH. split.
      * intros (opt & Hin & Hopt). eauto.
      * intros (opt & [<- | Hin] & Hopt); [congruence | eauto].
Qed.

Lemma mountLoop_error_iff (mounts : list configs.Mount) :
  validate.mountLoop mounts <> None <->
  exists m, In m mounts /\
            validate.mountOptions (strings.Split (configs.Data m) ","%char) <> None.
Proof.
  induction mounts as [|m mounts IH]; simpl.
  - split; [congruence | intros (? & [] & _)].
  - destruct (validate.mountOptions _) eqn:Em.
    + split; [intros _; exists m; split; [now left | congruence] | discriminate].
    + rewrite IH. split.
      * intros (m' & Hin & Hm'). eauto.
      * intros (m' & [<- | Hin] & Hm'); [congruence | eauto].
Qed.

Lemma cgroupFields_error_iff (fs : list cgroupcfg.Field) :
  validate.cgroupFields fs <> None <->
  exists f, In f fs /\ strings.Contains (cgroupcfg.Name f) "Device" = false /\
            cgroupcfg.isDefault f = false.
Proof.
  induction fs as [|f fs IH]; simpl.
  - split; [congruence | intros (? & [] & _)].
  - destruct (strings.Contains (cgroupcfg.Name f) "Device") eqn:Ed.
    + rewrite IH. split.
      * intros (f' & Hin & Hf'). eauto.
      * intros (f' & [<- | Hin] & Hd & Hf'); [congruence | eauto].
    + destruct (cgroupcfg.isDefault f) eqn:Ez; simpl.
      * rewrite IH. split.
        -- intros (f' & Hin & Hf'). eauto.
        -- intros (f' & [<- | Hin] & Hd & Hf'); [congruence | eauto].
      * split; [intros _; exists f; auto | discriminate].
Qed.

(** X3: what the validator does: it returns an error exactly for a mount
    violation or a non-default field whose name does not contain
    [Device]; a nil configuration and nil resource limits pass. *)
Lemma Validate_error_iff (c : configs.Config) :
  validate.Validate (Some c) <> None <-> mountViolation c \/ limitViolation c.
Proof.
  unfold validate.Validate.
  assert (Hm : validate.mount c <> None <-> mountViolation c).
  { unfold validate.mount, mountViolation. rewrite mountLoop_error_iff. split.
    - intros (m & Hin & Hopts). apply mountOptions_error_iff in Hopts.
      destruct Hopts as (opt & Ho & Herr). apply mountOption_error_iff in Herr.
      destruct Herr as (N & HN). exists m, opt, N. tauto.
    - intros (m & opt & N & Hin & Ho & HN). exists m. split; [assumption|].
      apply mountOptions_error_iff. exists opt. split; [assumption|].
      apply mountOption_error_iff. exists N. tauto. }
  assert (Hc : validate.cgroup c <> None <-> limitViolation c).
  { unfold validate.cgroup, limitViolation.
    destruct (configs.Cgroups c) as [cg|].
    2:{ split; [congruence | intros (? & ? & ? & ? & _); congruence]. }
    destruct (cgroupcfg.Resources_ cg) as [r|] eqn:Er.
    2:{ split; [congruence | intros (? & ? & ? & Hcg & Hr & _); congruence]. }
    destruct (cgroupcfg.DeepEqualZero r) eqn:Ez.
    - split; [congruence|].
      intros (cg' & r' & f & Hcg & Hr & Hin & _ & Hf).
      assert (r' = r) as -> by congruence.
      unfold cgroupcfg.DeepEqualZero in Ez. rewrite forallb_forall in Ez.
      rewrite (Ez f Hin) in Hf. discriminate.
    - rewrite cgroupFields_error_iff. split.
      + intros (f & Hf). exists cg, r, f. tauto.
      + intros (cg' & r' & f & Hcg & Hr & Hf).
        assert (r' = r) as -> by congruence. exists f. tauto. }
  destruct (validate.mount c) eqn:Em.
  - split; [intros _; left; apply Hm; congruence | congruence].
  - destruct (validate.cgroup c) eqn:Ec.
    + split; [intros _; right; apply Hc; congruence | congruence].
    + split; [congruence|]. intros [Hv | Hv]; [apply Hm in Hv | apply Hc in Hv]; congruence.
Qed.

Lemma Validate_nil : validate.Validate None = None.
Proof. reflexivity. Qed.


(** C5, at the failing input: the limits [blkioLimits] differ from the
    zero value in the field [BlkioWeightDevice], which holds no
    device-access rule, and the validator returns nil for a configuration
    that carries them: the walk skips every field whose name contains
    [Device]. *)
Theorem Validate_skips_blkio_device_limits :
  cgroupcfg.DeepEqualZero blkioLimits = false /\
  In {| cgroupcfg.Name := "BlkioWeightDevice"; cgroupcfg.isDefault := false |}
     (cgroupcfg.fields blkioLimits) /\
  cgroupcfg.deviceAccessField "BlkioWeightDevice" = false /\
  strings.Contains "BlkioWeightDevice" "Device" = true /\
  validate.Validate (Some blkioConfig) = None.
Proof.
  repeat split; try reflexivity.
  simpl. do 19 right. left. reflexivity.
Qed.

(** A limit outside the skipped fields is refused. *)
Example Validate_refuses_memory_limit :
  validate.Validate (Some memoryConfig) =
    Some (validate.nonDefaultError "Memory").
Proof. reflexivity. Qed.

(** ** The rootless cgroup manager *)

(** C6: [Apply] returns nil when the cgroup configuration is absent or
    names no explicit paths, and an error when it names paths; [Freeze]
    returns an error; [Set] and [Destroy] return nil; none of them acts
    on the world. *)
Theorem rootless_manager_methods (World : Type) :
  (forall (m : rootless.Manager) (pid : Z) (w : World),
     (rootless.Cgroups m = None \/
      exists cg, rootless.Cgroups m = Some cg /\ cgroupcfg.Paths cg = None) ->
     rootless.Apply World m pid w = (None, w)) /\
  (forall (m : rootless.Manager) (pid : Z) (w : World) cg paths,
     rootless.Cgroups m = Some cg -> cgroupcfg.Paths cg = Some paths ->
     exists err, rootless.Apply World m pid w = (Some err, w)) /\
  (forall (m : rootless.Manager) (st : cgroupcfg.FreezerState) (w : World),
     exists err, rootless.Freeze World m st w = (Some err, w)) /\
  (forall (m : rootless.Manager) (container : configs.Config) (w : World),
     rootless.Set_ World m container w = (None, w)) /\
  (forall (m : rootless.Manager) (w : World), rootless.Destroy World m w = (None, w)).
Proof.
  repeat split.
  - intros m pid w [Hc | (cg & Hc & Hp)]; unfold rootless.Apply; rewrite Hc;
      [reflexivity | rewrite Hp; reflexivity].
  - intros m pid w cg paths Hc Hp. unfold rootless.Apply. rewrite Hc, Hp. eauto.
  - intros m st w. unfold rootless.Freeze. eauto.
Qed.

(** [Apply] on a manager without cgroup settings, and on one whose
    settings name a path for the memory subsystem. *)
Lemma rootless_manager_methods_witness :
  rootless.Apply unit managerWithoutCgroups 42 tt = (None, tt) /\
  exists err, rootless.Apply unit managerWithPaths 42 tt = (Some err, tt).
Proof.
  destruct (rootless_manager_methods unit) as (Hnil & Hpaths & _).
  split.
  - apply Hnil. left. reflexivity.
  - eapply Hpaths; reflexivity.
Defined.

(** ** ToRootless *)


(** Every option that is neither [uid=...] nor [gid=...] is kept, in order. *)
Lemma keepOptions_keeps (opts : list string) (opt : string) :
  In opt opts ->
  strings.HasPrefix opt "uid=" = false -> strings.HasPrefix opt "gid=" = false ->
  In opt (specconv.keepOptions opts).
Proof.
  induction opts as [|o opts IH]; simpl; [tauto|].
  intros [-> | Hin] Hu Hg.
  - rewrite Hu, Hg. simpl. now left.
  - destruct (negb _ && negb _); [right|]; auto.
Qed.










(** ** Factory.Create *)

Section FactoryProperties.

Context {W : Type} `{Host W}.

Lemma validateID_invalid (l : LinuxFactory) (id : string) :
  idRegexMatchString id = false \/ Z.of_nat (String.length id) > maxIdLen ->
  validateID l id =
    Some (genericError InvalidIdFormat (Errorf ("invalid id format: " +:+ id))).
Proof.
  intros Hbad. unfold validateID, newGenericError.
  destruct (idRegexMatchString id); simpl; [|reflexivity].
  destruct Hbad as [Hbad | Hbad]; [discriminate|].
  apply Z.gt_lt, Z.gtb_lt in Hbad. now rewrite Hbad.
Qed.

Lemma validateID_valid (l : LinuxFactory) (id : string) :
  idRegexMatchString id = true -> Z.of_nat (String.length id) <= maxIdLen ->
  validateID l id = None.
Proof.
  intros Hm Hl. unfold validateID. rewrite Hm. simpl.
  destruct (Z.gtb_spec (Z.of_nat (String.length id)) maxIdLen); [lia | reflexivity].
Qed.

(** C3 (as amended): on a factory whose root is not empty, an id that
    violates the pattern or is longer than 1024 makes [Create] return
    [InvalidIdFormat] (with an empty root [Create] returns [ConfigInvalid]
    before it looks at the id); and a [Create] that fails the root check,
    the id validation, the config validation, [isRootless] or the rootless
    validation returns its error and leaves the host and the factory as
    they were. *)
Theorem Create_validation_failures (l : LinuxFactory) (euid egid : Z) (w : W)
    (id : string) (config : configs.Config) :
  (Root l = "" ->
     Create l euid egid w id config =
       (Err (genericError ConfigInvalid (Errorf "invalid root")), l, w)) /\
  (Root l <> "" ->
     (idRegexMatchString id = false \/ Z.of_nat (String.length id) > maxIdLen) ->
     Create l euid egid w id config =
       (Err (genericError InvalidIdFormat (Errorf ("invalid id format: " +:+ id))), l, w)) /\
  (Root l <> "" -> validateID l id = None ->
     forall err, Validator l config = Some err ->
     Create l euid egid w id config = (Err (genericError ConfigInvalid err), l, w)) /\
  (Root l <> "" -> validateID l id = None -> Validator l config = None ->
     forall err, snd (isRootless euid egid config) = Some err ->
     Create l euid egid w id config = (Err (genericError ConfigInvalid err), l, w)) /\
  (Root l <> "" -> validateID l id = None -> Validator l config = None ->
     isRootless euid egid config = (true, None) ->
     forall err, validate.Validate (Some config) = Some err ->
     Create l euid egid w id config = (Err (genericError ConfigInvalid err), l, w)).
Proof.
  unfold Create, newGenericError.
  split; [intros ->; reflexivity|].
  assert (Hroot : Root l <> "" -> String.eqb (Root l) "" = false)
    by (intros Hr; now apply String.eqb_neq).
  split.
  { intros Hr Hbad. rewrite (Hroot Hr), (validateID_invalid l id Hbad). reflexivity. }
  split.
  { intros Hr Hid err Hv. rewrite (Hroot Hr), Hid, Hv. reflexivity. }
  split.
  { intros Hr Hid Hv err Hiso. rewrite (Hroot Hr), Hid, Hv.
    destruct (isRootless euid egid config) as [r [e|]]; simpl in Hiso; [|discriminate].
    now inversion Hiso. }
  intros Hr Hid Hv Hiso err Hrv. rewrite (Hroot Hr), Hid, Hv, Hiso, Hrv. reflexivity.
Qed.

(** [Create] under the validations: what is left is the directory. *)
Lemma Create_valid (l : LinuxFactory) (euid egid : Z) (w : W)
    (id : string) (config : configs.Config) (rootless : bool) :
  Root l <> "" -> validateID l id = None -> Validator l config = None ->
  isRootless euid egid config = (rootless, None) ->
  (rootless = true -> validate.Validate (Some config) = None) ->
  Create l euid egid w id config =
    let containerRoot := filepath_Join (Root l) id in
    match os_Stat w containerRoot with
    | None =>
        (Err (genericError IdInUse (Errorf ("container with id exists: " +:+ id))), l, w)
    | Some err =>
        if negb (IsNotExist err) then (Err (genericError SystemError err), l, w)
        else
          match os_MkdirAll w containerRoot with
          | (Some err, w') => (Err (genericError SystemError err), l, w')
          | (None, w') =>
              let l' := if rootless then fst (RootlessCgroups l) else l in
              (Ok {| id := id; root := containerRoot; config := config;
                     cgroupManager := NewCgroupsManager l' (configs.Cgroups config) None;
                     initPath := InitPath l'; initArgs := InitArgs l';
                     criuPath := CriuPath l'; initProcess := None;
                     rootless_ := rootless; created := 0; state := stoppedState |},
               l', w')
          end
    end.
Proof.
  intros Hr Hid Hv Hiso Hrv. unfold Create, newGenericError.
  apply String.eqb_neq in Hr. rewrite Hr, Hid, Hv, Hiso.
  assert (Hrv' : (if rootless then validate.Validate (Some config) else None) = None)
    by (destruct rootless; auto).
  rewrite Hrv'. reflexivity.
Qed.

(** C4 (as amended): on a factory whose root is not empty, for an id that
    matches the pattern and is at most 1024 long and a configuration that
    passes the validations, [Create] succeeds if and only if [os.Stat]
    reports that the container directory does not exist and [os.MkdirAll]
    creates it; when the directory exists [Create] returns [IdInUse], as
    does a second [Create] with the same id after a successful one; when
    [os.Stat] fails otherwise or the directory cannot be created it
    returns [SystemError]. *)
Theorem Create_succeeds_iff (l : LinuxFactory) (euid egid : Z) (w : W)
    (id : string) (config : configs.Config) :
  Root l <> "" ->
  idRegexMatchString id = true -> Z.of_nat (String.length id) <= maxIdLen ->
  validConfig l euid egid config ->
  let containerRoot := filepath_Join (Root l) id in
  (succeeds (Create l euid egid w id config) <-> canCreateDir w containerRoot) /\
  (os_Stat w containerRoot = None -> failsWith IdInUse (Create l euid egid w id config)) /\
  (~ canCreateDir w containerRoot -> os_Stat w containerRoot <> None ->
     failsWith SystemError (Create l euid egid w id config)) /\
  (mkdirThenStat ->
   forall c l' w', Create l euid egid w id config = (Ok c, l', w') ->
     failsWith IdInUse (Create l' euid egid w' id config)).
Proof.
  intros Hr Hm Hlen (Hv & rootless & Hiso & Hrv) containerRoot.
  pose proof (validateID_valid l id Hm Hlen) as Hid.
  pose proof (Create_valid l euid egid w id config rootless Hr Hid Hv Hiso Hrv) as HC.
  cbv zeta in HC. fold containerRoot in HC.
  set (l1 := if rootless then fst (RootlessCgroups l) else l) in HC.
  unfold succeeds, failsWith, canCreateDir.
  destruct (os_Stat w containerRoot) as [serr|] eqn:Es.
  - destruct (IsNotExist serr) eqn:Ene; simpl in HC.
    + destruct (os_MkdirAll w containerRoot) as [[merr|] w1] eqn:Em.
      * rewrite HC. simpl. split; [split|split; [|split]].
        -- intros [c Hc]. discriminate.
        -- intros [_ Hmk]. discriminate.
        -- discriminate.
        -- intros _ _. eauto.
        -- intros _ c l' w' Hc. discriminate.
      * rewrite HC. split; [split|split; [|split]].
        -- intros _. eauto.
        -- intros _. simpl. eauto.
        -- discriminate.
        -- intros Hno _. exfalso. apply Hno. eauto.
        -- intros Hlaw c l' w' Hc. inversion Hc; subst l' w'. clear Hc.
           assert (Hr' : Root l1 = Root l) by (unfold l1; destruct rootless; reflexivity).
           assert (Hv' : Validator l1 config = None)
             by (unfold l1; destruct rootless; assumption).
           assert (Hr'' : Root l1 <> "") by (rewrite Hr'; assumption).
           rewrite (Create_valid l1 euid egid w1 id config rootless Hr'' Hid Hv' Hiso Hrv).
           cbv zeta. rewrite Hr'. fold containerRoot.
           rewrite (Hlaw w w1 containerRoot Em). simpl. eauto.
    + rewrite HC. simpl. split; [split|split; [|split]].
      * intros [c Hc]. discriminate.
      * intros [(e & He & Hne) _]. congruence.
      * discriminate.
      * intros _ _. eauto.
      * intros _ c l' w' Hc. discriminate.
  - rewrite HC. simpl. split; [split|split; [|split]].
    + intros [c Hc]. discriminate.
    + intros [(e & He & _) _]. discriminate.
    + intros _. eauto.
    + intros _ Hne. congruence.
    + intros _ c l' w' Hc. discriminate.
Qed.

(** [Create] never installs another constructor than the rootless one: a
    factory that builds rootless managers keeps doing so. *)
Lemma Create_keeps_rootless (l : LinuxFactory) (euid egid : Z) (w : W)
    (id : string) (config : configs.Config) r l' w' :
  NewCgroupsManager l = rootlessConstructor ->
  Create l euid egid w id config = (r, l', w') ->
  NewCgroupsManager l' = rootlessConstructor /\
  (forall c, r = Ok c -> isRootlessManager (cgroupManager c) = true).
Proof.
  intros Hl. unfold Create.
  repeat match goal with
         | |- context [match ?x with _ => _ end] =>
             lazymatch x with
             | context [match _ with _ => _ end] => fail
             | _ => destruct x eqn:?
             end
         | |- (_, _, _) = (_, _, _) -> _ =>
             let Hc := fresh "Hc" in
             intros Hc; inversion Hc; subst; clear Hc
         end;
    try (split; [assumption | intros c' Hc'; discriminate]).
  - split; [reflexivity|]. intros c' Hc'. inversion Hc'. reflexivity.
  - split; [assumption|]. intros c' Hc'. inversion Hc'. simpl. now rewrite Hl.
Qed.

Lemma Load_uses_constructor (l : LinuxFactory) (w : W) (id : string) c :
  NewCgroupsManager l = rootlessConstructor ->
  Load l w id = Returns (Ok c) -> isRootlessManager (cgroupManager c) = true.
Proof.
  intros Hl. unfold Load.
  destruct (String.eqb (Root l) ""); [discriminate|].
  destruct (loadState l w _) as [[st|]|e]; [|discriminate|discriminate].
  destruct (refreshState w _) as [k|e]; [|discriminate].
  intros Hc. inversion Hc. simpl. now rewrite Hl.
Qed.

Lemma runCalls_keeps_rootless (calls : list call) (l : LinuxFactory) (w : W) rs l' w' :
  NewCgroupsManager l = rootlessConstructor ->
  runCalls l w calls = (rs, l', w') ->
  NewCgroupsManager l' = rootlessConstructor /\
  Forall (fun r => forall c, r = Returns (Ok c) -> isRootlessManager (cgroupManager c) = true)
         rs.
Proof.
  revert l w rs l' w'. induction calls as [|[euid egid id config | id] calls IH];
    intros l w rs l' w' Hl; simpl.
  - intros Hr. inversion Hr; subst. auto.
  - destruct (Create l euid egid w id config) as [[r l1] w1] eqn:Ec.
    destruct (runCalls l1 w1 calls) as [[rs1 l2] w2] eqn:Er.
    intros Hr. inversion Hr; subst.
    destruct (Create_keeps_rootless _ _ _ _ _ _ _ _ _ Hl Ec) as [Hl1 Hc].
    destruct (IH _ _ _ _ _ Hl1 Er) as [Hl2 Hrs]. split; [assumption|].
    constructor; [|assumption]. intros c0 [= ->]. now apply Hc.
  - destruct (runCalls l w calls) as [[rs1 l2] w2] eqn:Er.
    intros Hr. inversion Hr; subst.
    destruct (IH _ _ _ _ _ Hl Er) as [Hl2 Hrs]. split; [assumption|].
    constructor; [|assumption]. intros c Hc. exact (Load_uses_constructor l w id c Hl Hc).
Qed.

(** C9 (as amended): a [Create] that succeeds on a configuration for which
    [isRootless] reports true overwrites the factory's [NewCgroupsManager]
    with the rootless constructor; the overwrite stays: the container it
    returns and the container of every later [Create] or [Load] on the
    factory, whatever the configuration and the invoking user, has a
    rootless cgroup manager. *)
Theorem rootless_constructor_persists (l : LinuxFactory) (euid egid : Z) (w : W)
    (id : string) (config : configs.Config) c l1 w1 (calls : list call) :
  isRootless euid egid config = (true, None) ->
  Create l euid egid w id config = (Ok c, l1, w1) ->
  NewCgroupsManager l1 = rootlessConstructor /\
  isRootlessManager (cgroupManager c) = true /\
  NewCgroupsManager (snd (fst (runCalls l1 w1 calls))) = rootlessConstructor /\
  Forall (fun r => forall c', r = Returns (Ok c') ->
                    isRootlessManager (cgroupManager c') = true)
         (fst (fst (runCalls l1 w1 calls))).
Proof.
  intros Hiso Hc.
  assert (Hl1 : NewCgroupsManager l1 = rootlessConstructor /\
                isRootlessManager (cgroupManager c) = true).
  { revert Hc. unfold Create. rewrite Hiso.
    repeat match goal with
           | |- context [match ?x with _ => _ end] =>
               lazymatch x with
               | context [match _ with _ => _ end] => fail
               | _ => destruct x eqn:?
               end
           end; try discriminate.
    intros Hc. inversion Hc. split; reflexivity. }
  destruct Hl1 as [Hl1 Hm]. split; [assumption|]. split; [assumption|].
  destruct (runCalls l1 w1 calls) as [[rs l2] w2] eqn:Er. simpl.
  eapply runCalls_keeps_rootless; eauto.
Qed.

End FactoryProperties.

(** ** StartInitialization *)

Section InitProperties.

Context {C : Type} `{InitHost C}.



(** A run in which the variable does not parse returns the conversion
    error and does not touch the channel. *)
Lemma StartInitialization_no_descriptor (getenv : string -> string) (pipe : Pipe) e :
  Atoi (getenv "_LIBCONTAINER_INITPIPE") = Err e ->
  exists err, StartInitialization getenv pipe = (Returns (Some err), pipe).
Proof. intros Ha. unfold StartInitialization. rewrite Ha. eauto. Qed.

(** A write that fails in the deferred function ends the call in a panic,
    before [pipe.Close()]. *)
Lemma sendError_write_fault (i : option (initer C)) (err : option error) (pipe : Pipe) werr :
  isStandard i = false -> writeFault pipe (newSystemError err) = Some werr ->
  sendError i err pipe = (Panics werr, pipe).
Proof.
  intros Hi Hw. unfold sendError, WriteJSON. rewrite Hi, Hw. reflexivity.
Qed.

End InitProperties.



(** ** getContainers *)

Section ListProperties.

Context {W : Type} `{Host W} `{ListHost W}.

(** The loop appends the row of every directory entry, as long as no
    loaded container fails to report. *)
Lemma listLoop_rows (factory : LinuxFactory) (w : W) (items : list FileInfo)
    (s : list containerState) :
  (forall item, In item items -> IsDir item = true -> rowOf factory w item <> None) ->
  listLoop factory w items s = Returns (Ok (s ++ rowsOf factory w items)%list).
Proof.
  revert s. induction items as [|item items IH]; intros s Hall; simpl.
  - now rewrite app_nil_r.
  - destruct (IsDir item) eqn:Ed.
    + assert (Hrow : rowOf factory w item <> None) by (apply Hall; [now left | assumption]).
      unfold rowOf in *.
      destruct (Load factory w (Name item)) as [[container|e]|v|]; [| |congruence|congruence].
      * destruct (container_Status w container) as [cs|e]; [|congruence].
        destruct (container_State w container) as [st|e]; [|congruence].
        rewrite IH by (intros i Hi Hdi; apply Hall; [now right | assumption]).
        simpl. now rewrite <- app_assoc.
      * rewrite IH by (intros i Hi Hdi; apply Hall; [now right | assumption]).
        simpl. now rewrite <- app_assoc.
    + rewrite IH by (intros i Hi Hdi; apply Hall; [now right | assumption]). reflexivity.
Qed.

Lemma rowOf_reports (factory : LinuxFactory) (w : W) (item : FileInfo) :
  reports factory w item ->
  exists container containerStatus st,
    Load factory w (Name item) = Returns (Ok container) /\
    container_Status w container = Ok containerStatus /\
    container_State w container = Ok st /\
    rowOf factory w item = Some (stateRow item containerStatus st).
Proof.
  intros (c & cs & st & Hl & Hs & Hst). exists c, cs, st.
  unfold rowOf. rewrite Hl, Hs, Hst. auto.
Qed.

Lemma rowOf_failsToLoad (factory : LinuxFactory) (w : W) (item : FileInfo) :
  failsToLoad factory w item -> rowOf factory w item = Some (placeholderRow item).
Proof. intros (e & He). unfold rowOf. now rewrite He. Qed.

Lemma rowsOf_length (factory : LinuxFactory) (w : W) (items : list FileInfo) :
  (forall item, In item items -> IsDir item = true -> rowOf factory w item <> None) ->
  List.length (rowsOf factory w items) = List.length (List.filter IsDir items).
Proof.
  induction items as [|item items IH]; intros Hall; simpl; [reflexivity|].
  destruct (IsDir item) eqn:Ed; simpl.
  - destruct (rowOf factory w item) eqn:Er.
    + simpl. rewrite IH by (intros i Hi Hdi; apply Hall; [now right | assumption]). reflexivity.
    + exfalso. apply (Hall item); [now left | assumption | assumption].
  - apply IH. intros i Hi Hdi; apply Hall; [now right | assumption].
Qed.

Lemma listLoop_app (factory : LinuxFactory) (w : W) (pre post : list FileInfo)
    (s : list containerState) :
  listLoop factory w (pre ++ post) s =
    match listLoop factory w pre s with
    | Returns (Ok s') => listLoop factory w post s'
    | other => other
    end.
Proof.
  revert s. induction pre as [|item pre IH]; intros s; simpl; [reflexivity|].
  destruct (IsDir item); [|apply IH].
  destruct (Load factory w (Name item)) as [[container|e]|v|];
    [|apply IH|reflexivity|reflexivity].
  destruct (container_Status w container) as [cs|e]; [|reflexivity].
  destruct (container_State w container) as [st|e]; [|reflexivity].
  apply IH.
Qed.

Lemma rowOf_goes_on (factory : LinuxFactory) (w : W) (item : FileInfo) :
  reports factory w item \/ failsToLoad factory w item ->
  rowOf factory w item <> None.
Proof.
  intros [Hr | Hf].
  - destruct (rowOf_reports factory w item Hr) as (c & cs & st & _ & _ & _ & Hrow).
    congruence.
  - rewrite (rowOf_failsToLoad factory w item Hf). discriminate.
Qed.

(** C8 (as amended).  First part: the root holds the directory entries
    [pre ++ bad :: post]; every directory among [pre] and [post] is a
    container that loads and reports its status and state, and [bad] is a
    directory whose container does not load ([Load] returns an error).
    Then the listing returns one row per directory, that is N + 1 rows for
    the N containers that load and report; the row of [bad] is the
    placeholder with status [-] and pid -1, at its place in the order; and
    every container that loads and reports has its own row.  Second part:
    when a container loads and [Status] or [State] then returns an error,
    the listing returns that error and no row, whatever rows the entries
    before it gave. *)
Theorem getContainers_placeholder_row (context : Context) (w : W)
    (factory : LinuxFactory) (absRoot : string) :
  loadFactory context = Ok factory ->
  filepath_Abs (GlobalRoot context) = Ok absRoot ->
  (forall (pre post : list FileInfo) (bad : FileInfo),
     ioutil_ReadDir w absRoot = Ok (pre ++ bad :: post) ->
     (forall item, In item (pre ++ post) -> IsDir item = true -> reports factory w item) ->
     IsDir bad = true ->
     failsToLoad factory w bad ->
     let N := List.length (List.filter IsDir (pre ++ post)) in
     let rows := (rowsOf factory w pre ++ placeholderRow bad :: rowsOf factory w post)%list in
     getContainers context w = Listed (Ok rows) /\
     List.length rows = S N /\
     rows !! List.length (rowsOf factory w pre) = Some (placeholderRow bad) /\
     row_ID (placeholderRow bad) = Name bad /\
     row_Status (placeholderRow bad) = "-" /\
     row_InitProcessPid (placeholderRow bad) = -1 /\
     (forall item, In item (pre ++ post) -> IsDir item = true ->
        exists container containerStatus st,
          Load factory w (Name item) = Returns (Ok container) /\
          container_Status w container = Ok containerStatus /\
          container_State w container = Ok st /\
          In (stateRow item containerStatus st) rows)) /\
  (forall (pre post : list FileInfo) (item : FileInfo) (err : error),
     ioutil_ReadDir w absRoot = Ok (pre ++ item :: post) ->
     (forall i, In i pre -> IsDir i = true ->
        reports factory w i \/ failsToLoad factory w i) ->
     IsDir item = true ->
     failsToReport factory w item err ->
     getContainers context w = Listed (Err err)).
Proof.
  intros Hf Ha. split.
  - intros pre post bad Hd Hgood Hbd Hbad N rows.
    assert (Hrow : forall item, In item (pre ++ post) -> IsDir item = true ->
                     rowOf factory w item <> None).
    { intros item Hin Hdir. apply rowOf_goes_on. left. now apply Hgood. }
    assert (Hall : forall item, In item (pre ++ bad :: post) -> IsDir item = true ->
                     rowOf factory w item <> None).
    { intros item Hin Hdir. apply in_app_or in Hin. destruct Hin as [Hin | [<- | Hin]].
      - apply Hrow; [apply in_or_app; auto | assumption].
      - apply rowOf_goes_on. now right.
      - apply Hrow; [apply in_or_app; auto | assumption]. }
    assert (Hrows : rowsOf factory w (pre ++ bad :: post) = rows).
    { unfold rowsOf at 1. rewrite flat_map_app. simpl.
      rewrite Hbd, (rowOf_failsToLoad factory w bad Hbad). reflexivity. }
    split.
    { unfold getContainers. rewrite Hf, Ha, Hd.
      rewrite listLoop_rows by assumption. simpl. now rewrite Hrows. }
    split.
    { rewrite <- Hrows, rowsOf_length by assumption. unfold N.
      rewrite !List.filter_app. simpl. rewrite Hbd.
      rewrite !length_app. simpl. lia. }
    split.
    { unfold rows. rewrite lookup_app_r by lia. now rewrite Nat.sub_diag. }
    split; [reflexivity|]. split; [reflexivity|]. split; [reflexivity|].
    intros item Hin Hdir.
    destruct (rowOf_reports factory w item (Hgood item Hin Hdir))
      as (c & cs & st & Hl & Hs & Hst & Hr).
    exists c, cs, st. repeat (split; [assumption|]).
    assert (Hin' : In (stateRow item cs st) (rowsOf factory w (pre ++ post))).
    { unfold rowsOf. apply in_flat_map. exists item. split; [assumption|].
      rewrite Hdir, Hr. now left. }
    unfold rowsOf in Hin'. rewrite flat_map_app in Hin'. apply in_app_or in Hin'.
    unfold rows. apply in_or_app. destruct Hin'; [left | right; right]; assumption.
  - intros pre post item err Hd Hpre Hdir (container & Hl & Hrep).
    assert (Hrow : forall i, In i pre -> IsDir i = true -> rowOf factory w i <> None).
    { intros i Hin Hdi. apply rowOf_goes_on. now apply Hpre. }
    unfold getContainers. rewrite Hf, Ha, Hd.
    rewrite listLoop_app, (listLoop_rows _ _ _ _ Hrow). simpl.
    rewrite Hdir, Hl.
    destruct Hrep as [Hs | (cs & Hs & Ht)]; rewrite Hs; [reflexivity|].
    now rewrite Ht.
Qed.

End ListProperties.

(** ** The properties at the concrete host *)

Lemma table_mkdirThenStat : mkdirThenStat (W := Table).
Proof.
  intros w w' p. simpl. unfold tableMkdirAll, tableStat.
  destruct (nodes w !! p) as [[|contents|]|] eqn:En.
  - intros [= <-]. now rewrite En.
  - discriminate.
  - discriminate.
  - destruct (readOnly w); [discriminate|].
    intros [= <-]. simpl. now rewrite lookup_insert_eq.
Qed.

(** The listing of /run/demo on [hostWithC0]: the placeholder for the
    directory whose state does not decode, and the row of c0.  The
    listing of the crowded root on the host where a stopped container
    cannot report its status: broken does not load, c0 loads and reports,
    copy loads and does not report; the listing is the error of copy. *)
Lemma getContainers_placeholder_row_witness :
  getContainers {| GlobalRoot := "/run/demo" |} hostWithC0 =
    Listed (Ok [ {| row_ID := "broken"; row_InitProcessPid := -1; row_Status := "-";
                    row_Bundle := "-"; row_Created := 0; row_Annotations := None;
                    row_Owner := "demo" |};
                 {| row_ID := "c0"; row_InitProcessPid := 4242; row_Status := "running";
                    row_Bundle := "/srv/bundle"; row_Created := 1488000000;
                    row_Annotations := None; row_Owner := "root" |} ]) /\
  getContainers (H0 := strictList) {| GlobalRoot := "/run/demo" |} crowdedHost =
    Listed (Err (Errorf "open /sys/fs/cgroup/freezer/freezer.state: permission denied")).
Proof.
  split.
  - destruct (getContainers_placeholder_row
                {| GlobalRoot := "/run/demo" |} hostWithC0 (newFactory "/run/demo")
                "/run/demo") as [Hrows _]; [reflexivity | reflexivity |].
    destruct (Hrows [] [{| Name := "c0"; IsDir := true; Uid := 0 |}]
                {| Name := "broken"; IsDir := true; Uid := 1000 |}) as (Hlist & _).
    + reflexivity.
    + intros item [<- | []] _. do 3 eexists. repeat split; reflexivity.
    + reflexivity.
    + eexists. reflexivity.
    + exact Hlist.
  - destruct (getContainers_placeholder_row (H0 := strictList)
                {| GlobalRoot := "/run/demo" |} crowdedHost (newFactory "/run/demo")
                "/run/demo") as [_ Habort]; [reflexivity | reflexivity |].
    apply (Habort [{| Name := "broken"; IsDir := true; Uid := 65 |};
                   {| Name := "c0"; IsDir := true; Uid := 0 |}]
                  [{| Name := "notes.txt"; IsDir := false; Uid := 0 |}]
                  {| Name := "copy"; IsDir := true; Uid := 1000 |}).
    + reflexivity.
    + intros i [<- | [<- | []]] _.
      * right. eexists. reflexivity.
      * left. do 3 eexists. repeat split; reflexivity.
    + reflexivity.
    + eexists. split; [vm_compute; reflexivity|]. left. reflexivity.
Defined.

(** C8, counterexample: the crowded root holds two containers that load,
    c0 and copy, and the directory broken, whose state cannot be loaded.
    On the host where a stopped container cannot report its status the
    listing does not return three entries: it returns the error of
    [Status] for copy, and no entry. *)
Lemma getContainers_loaded_container_aborts :
  tableReadDir crowdedHost "/run/demo" =
    Ok [{| Name := "broken"; IsDir := true; Uid := 65 |};
        {| Name := "c0"; IsDir := true; Uid := 0 |};
        {| Name := "copy"; IsDir := true; Uid := 1000 |};
        {| Name := "notes.txt"; IsDir := false; Uid := 0 |}] /\
  (exists c, Load (newFactory "/run/demo") crowdedHost "c0" = Returns (Ok c)) /\
  (exists c, Load (newFactory "/run/demo") crowdedHost "copy" = Returns (Ok c)) /\
  (exists err, Load (newFactory "/run/demo") crowdedHost "broken" = Returns (Err err)) /\
  getContainers (H0 := strictList) {| GlobalRoot := "/run/demo" |} crowdedHost =
    Listed (Err (Errorf "open /sys/fs/cgroup/freezer/freezer.state: permission denied")).
Proof.
  split; [reflexivity|].
  split; [eexists; vm_compute; reflexivity|].
  split; [eexists; vm_compute; reflexivity|].
  split; [eexists; vm_compute; reflexivity|].
  vm_compute. reflexivity.
Qed.

(** C3, counterexample: a factory with an empty root (as [New] builds for
    the root [""]) returns [ConfigInvalid] for an id that violates the
    pattern, not [InvalidIdFormat]. *)
Lemma Create_empty_root_invalid_id :
  idRegexMatchString "bad/id" = false /\
  fst (fst (Create (newFactory "") 0 0 demoHost "bad/id" rootConfig)) =
    Err (genericError ConfigInvalid (Errorf "invalid root")) /\
  ~ failsWith InvalidIdFormat (Create (newFactory "") 0 0 demoHost "bad/id" rootConfig).
Proof.
  split; [reflexivity|]. split; [reflexivity|].
  intros [cause Hc]. discriminate.
Qed.

(** An id with a slash, and a rootless configuration with a memory limit:
    both are refused and the factory and the host stay as they were. *)
Lemma Create_validation_failures_witness :
  Create (newFactory "/run/demo") 0 0 demoHost "bad/id" rootConfig =
    (Err (genericError InvalidIdFormat (Errorf "invalid id format: bad/id")),
     newFactory "/run/demo", demoHost) /\
  Create (newFactory "/run/demo") 1000 1000 demoHost "c1" memoryConfig =
    (Err (genericError ConfigInvalid (validate.nonDefaultError "Memory")),
     newFactory "/run/demo", demoHost).
Proof.
  split.
  - apply (Create_validation_failures (newFactory "/run/demo") 0 0 demoHost
             "bad/id" rootConfig); [discriminate | left; reflexivity].
  - apply (Create_validation_failures (newFactory "/run/demo") 1000 1000 demoHost
             "c1" memoryConfig); try reflexivity. discriminate.
Defined.

(** C4, counterexample: no directory /run/demo/c1 exists, the id and the
    configuration are valid, and [Create] fails, with [SystemError]: the
    file system is read-only. *)
Lemma Create_fails_without_directory :
  nodes readOnlyHost !! "/run/demo/c1" = None /\
  idRegexMatchString "c1" = true /\
  Create (newFactory "/run/demo") 0 0 readOnlyHost "c1" rootConfig =
    (Err (genericError SystemError (PathError "mkdir" "/run/demo/c1" EROFS)),
     newFactory "/run/demo", readOnlyHost) /\
  ~ succeeds (Create (newFactory "/run/demo") 0 0 readOnlyHost "c1" rootConfig).
Proof.
  split; [reflexivity|]. split; [reflexivity|]. split; [reflexivity|].
  intros [c Hc]. discriminate.
Qed.

(** [Create] of c1 in the empty /run/demo succeeds; with the directory
    /run/demo/c1 in place it returns [IdInUse]. *)
Lemma Create_succeeds_iff_witness :
  succeeds (Create (newFactory "/run/demo") 0 0 demoHost "c1" rootConfig) /\
  failsWith IdInUse (Create (newFactory "/run/demo") 0 0 hostWithC1 "c1" rootConfig).
Proof.
  split.
  - apply (Create_succeeds_iff (newFactory "/run/demo") 0 0 demoHost "c1" rootConfig).
    + discriminate.
    + reflexivity.
    + simpl. unfold maxIdLen. lia.
    + split; [reflexivity|]. exists false. split; [reflexivity | discriminate].
    + split; [|reflexivity]. eexists. split; reflexivity.
  - apply (Create_succeeds_iff (newFactory "/run/demo") 0 0 hostWithC1 "c1" rootConfig).
    + discriminate.
    + reflexivity.
    + simpl. unfold maxIdLen. lia.
    + split; [reflexivity|]. exists false. split; [reflexivity | discriminate].
    + reflexivity.
Defined.

(** C9, counterexample: [Create] is called with a configuration for which
    [isRootless] reports true, for an id whose directory exists: it
    returns [IdInUse], and the factory still builds the cgroupfs manager. *)
Lemma Create_failure_keeps_constructor :
  isRootless 1000 1000 (rootlessConfig 1000 1000) = (true, None) /\
  failsWith IdInUse
    (Create (newFactory "/run/demo") 1000 1000 hostWithC1 "c1" (rootlessConfig 1000 1000)) /\
  NewCgroupsManager
    (snd (fst (Create (newFactory "/run/demo") 1000 1000 hostWithC1 "c1"
                 (rootlessConfig 1000 1000)))) None None = fsManager None None /\
  NewCgroupsManager
    (snd (fst (Create (newFactory "/run/demo") 1000 1000 hostWithC1 "c1"
                 (rootlessConfig 1000 1000)))) <> rootlessConstructor.
Proof.
  split; [reflexivity|]. split; [eexists; reflexivity|]. split; [reflexivity|].
  intros Heq. apply (f_equal (fun f => f None None)) in Heq. discriminate.
Qed.

(** After a rootless [Create] of c1 by the user 1000, the same factory
    creates c2 for root from a configuration that is not rootless and
    loads c0, which root saved: both containers are not rootless and both
    get the rootless cgroup manager. *)
Lemma rootless_constructor_persists_witness :
  let '(r, l1, w1) :=
    Create (newFactory "/run/demo") 1000 1000 hostWithC0 "c1" (rootlessConfig 1000 1000) in
  map (fun r => match r with
                | Returns (Ok c) => Some (rootless_ c, isRootlessManager (cgroupManager c))
                | _ => None
                end)
      (fst (fst (runCalls l1 w1 [callCreate 0 0 "c2" rootConfig; callLoad "c0"]))) =
    [Some (false, true); Some (false, true)] /\
  Forall (fun r => forall c', r = Returns (Ok c') ->
                    isRootlessManager (cgroupManager c') = true)
         (fst (fst (runCalls l1 w1 [callCreate 0 0 "c2" rootConfig; callLoad "c0"]))).
Proof.
  destruct (Create (newFactory "/run/demo") 1000 1000 hostWithC0 "c1"
              (rootlessConfig 1000 1000)) as [[r l1] w1] eqn:Ec.
  vm_compute in Ec. inversion Ec; subst r l1 w1. clear Ec.
  split; [vm_compute; reflexivity|].
  eapply (rootless_constructor_persists (newFactory "/run/demo") 1000 1000 hostWithC0
            "c1" (rootlessConfig 1000 1000)).
  - reflexivity.
  - vm_compute. reflexivity.
Defined.

(** * Further properties of the code *)

(** ** validateID *)

Lemma idChar_inAlphabet (c : ascii) : idChar c = inAlphabet c.
Proof.
  destruct c as [b0 b1 b2 b3 b4 b5 b6 b7].
  destruct b0, b1, b2, b3, b4, b5, b6, b7; vm_compute; reflexivity.
Qed.

Lemma inAlphabet_In (c : ascii) :
  inAlphabet c = true <-> In c (list_ascii_of_string idAlphabet).
Proof.
  unfold inAlphabet. rewrite existsb_exists. split.
  - intros (x & Hin & Heq). apply Ascii.eqb_eq in Heq. now subst.
  - intros Hin. exists c. split; [assumption | apply Ascii.eqb_refl].
Qed.

(** X1: [validateID] accepts an id exactly when it is not empty, each of
    its bytes is a digit, an ASCII letter, an underscore, or one of
    [+ , - .], and it is at most 1024 bytes long. *)
Theorem validateID_accepts_iff (l : LinuxFactory) (id : string) :
  validateID l id = None <->
  id <> "" /\
  (forall c, In c (list_ascii_of_string id) -> In c (list_ascii_of_string idAlphabet)) /\
  (String.length id <= 1024)%nat.
Proof.
  unfold validateID, idRegexMatchString, maxIdLen. split.
  - destruct id as [|a id']; [discriminate|].
    destruct (forallb idChar (list_ascii_of_string (String a id'))) eqn:Ef;
      simpl negb; cbv iota; [|discriminate].
    destruct (Z.gtb_spec (Z.of_nat (String.length (String a id'))) 1024) as [Hgt|Hle];
      [discriminate|].
    intros _. split; [discriminate|]. split; [|lia].
    intros c Hc. rewrite forallb_forall in Ef. specialize (Ef c Hc).
    rewrite idChar_inAlphabet in Ef. now apply inAlphabet_In.
  - intros (Hne & Hall & Hlen).
    destruct id as [|a id']; [congruence|].
    assert (Ef : forallb idChar (list_ascii_of_string (String a id')) = true).
    { apply forallb_forall. intros c Hc. rewrite idChar_inAlphabet.
      apply inAlphabet_In. now apply Hall. }
    rewrite Ef. simpl negb. cbv iota.
    destruct (Z.gtb_spec (Z.of_nat (String.length (String a id'))) 1024) as [Hgt|Hle];
      [lia | reflexivity].
Qed.

(** ** isRootless *)

(** A single mapping of size 1 that sends container ID 0 to [x]. *)
Lemma single_mapping_root (m : configs.IDMap) (x : Z) :
  configs.Size m = 1 -> configs.hostIDFromMapping 0 [m] = Some x -> m = idmap 0 x 1.
Proof.
  destruct m as [cid hid sz]. simpl. intros ->.
  destruct (Z.leb_spec cid 0); simpl; [|discriminate].
  destruct (Z.leb_spec 0 (cid + 1 - 1)); simpl; [|discriminate].
  intros [= <-]. assert (cid = 0) by lia. subst cid.
  unfold idmap. f_equal. lia.
Qed.

(** The mappings of a configuration that [isRootless] accepts as rootless. *)
Lemma isRootless_true_mappings (euid egid : Z) (c : configs.Config) :
  isRootless euid egid c = (true, None) ->
  euid <> 0 /\
  configs.Contains (configs.Namespaces c) configs.NEWUSER = true /\
  configs.UidMappings c = [idmap 0 euid 1] /\
  configs.GidMappings c = [idmap 0 egid 1].
Proof.
  intros Ht. apply isRootless_true_inv in Ht.
  destruct Ht as (Hne & Hns & Hu & Hg & (mu & Hmu & Hsu) & (mg & Hmg & Hsg)).
  split; [assumption|]. split; [assumption|].
  unfold configs.HostUID in Hu. unfold configs.HostGID in Hg.
  rewrite Hns, Hmu in Hu. rewrite Hns, Hmg in Hg.
  rewrite Hmu, Hmg. split; f_equal.
  - apply single_mapping_root; [assumption|].
    destruct (configs.hostIDFromMapping 0 [mu]); [congruence | discriminate].
  - apply single_mapping_root; [assumption|].
    destruct (configs.hostIDFromMapping 0 [mg]); [congruence | discriminate].
Qed.

(** X2: [isRootless] answers [(true, nil)] exactly when the caller is not
    root, the configuration has a user-namespace entry, its only UID
    mapping maps container ID 0 to the effective UID with size 1, and its
    only GID mapping maps container ID 0 to the effective GID with size 1. *)
Theorem isRootless_true_iff (euid egid : Z) (c : configs.Config) :
  isRootless euid egid c = (true, None) <->
  euid <> 0 /\
  configs.Contains (configs.Namespaces c) configs.NEWUSER = true /\
  configs.UidMappings c = [idmap 0 euid 1] /\
  configs.GidMappings c = [idmap 0 egid 1].
Proof.
  split; [apply isRootless_true_mappings|].
  intros (Hne & Hns & Hu & Hg).
  unfold isRootless, configs.HostUID, configs.HostGID.
  rewrite Hns, Hu, Hg. unfold idmap. simpl.
  rewrite !Z.add_0_r, !Z.eqb_refl.
  apply Z.eqb_neq in Hne. rewrite Hne. reflexivity.
Qed.

(** ** RootlessValidator *)

Lemma mountLoop_data (ms1 ms2 : list configs.Mount) :
  map configs.Data ms1 = map configs.Data ms2 ->
  validate.mountLoop ms1 = validate.mountLoop ms2.
Proof.
  revert ms2. induction ms1 as [|m1 ms1 IH]; intros [|m2 ms2]; simpl;
    try discriminate; [reflexivity|].
  intros [= Hd Hrest]. rewrite Hd, (IH ms2 Hrest). reflexivity.
Qed.

(** X4: the rootless validator reads nothing of a configuration but the
    data strings of its mounts and its resource limits: two
    configurations that agree on these get the same answer, whatever
    their namespaces, mappings, mount sources and cgroup paths are. *)
Theorem Validate_depends_on (c1 c2 : configs.Config) :
  mountData c1 = mountData c2 ->
  resourceLimits c1 = resourceLimits c2 ->
  validate.Validate (Some c1) = validate.Validate (Some c2).
Proof.
  unfold mountData, resourceLimits. intros Hm Hr.
  unfold validate.Validate, validate.mount.
  rewrite (mountLoop_data _ _ Hm).
  assert (Hc : validate.cgroup c1 = validate.cgroup c2).
  { unfold validate.cgroup.
    destruct (configs.Cgroups c1) as [cg1|], (configs.Cgroups c2) as [cg2|];
      simpl in Hr.
    - now rewrite Hr.
    - now rewrite Hr.
    - now rewrite <- Hr.
    - reflexivity. }
  now rewrite Hc.
Qed.

(** A configuration with explicit cgroup paths is judged like the one
    without. *)
Lemma Validate_depends_on_witness :
  pathsConfig <> rootlessConfig 1000 1000 /\
  validate.Validate (Some pathsConfig) = validate.Validate (Some (rootlessConfig 1000 1000)).
Proof.
  split; [discriminate|].
  apply (Validate_depends_on pathsConfig (rootlessConfig 1000 1000)); reflexivity.
Defined.

(** X5: the error of the cgroup check names the first field, in the order
    of declaration, that is not passed over: fields before it whose name
    contains [Device] or that have their zero value do not matter, nor do
    the fields after it. *)
Theorem cgroupFields_first_offender (pre post : list cgroupcfg.Field)
    (f : cgroupcfg.Field) :
  Forall passedOver pre ->
  strings.Contains (cgroupcfg.Name f) "Device" = false ->
  cgroupcfg.isDefault f = false ->
  validate.cgroupFields (pre ++ f :: post) =
    Some (validate.nonDefaultError (cgroupcfg.Name f)).
Proof.
  intros Hpre Hd Hz. induction Hpre as [|g pre [Hg | Hg] _ IH]; simpl.
  - now rewrite Hd, Hz.
  - now rewrite Hg.
  - rewrite Hg. simpl. destruct (strings.Contains (cgroupcfg.Name g) "Device"); exact IH.
Qed.

(** A non-default device list, then a memory limit and a CPU limit: the
    error names the memory limit. *)
Lemma cgroupFields_first_offender_witness :
  validate.cgroupFields
    [ {| cgroupcfg.Name := "Devices"; cgroupcfg.isDefault := false |};
      {| cgroupcfg.Name := "Memory"; cgroupcfg.isDefault := false |};
      {| cgroupcfg.Name := "CpuShares"; cgroupcfg.isDefault := false |} ] =
    Some (validate.nonDefaultError "Memory").
Proof.
  apply (cgroupFields_first_offender
           [ {| cgroupcfg.Name := "Devices"; cgroupcfg.isDefault := false |} ]
           [ {| cgroupcfg.Name := "CpuShares"; cgroupcfg.isDefault := false |} ]
           {| cgroupcfg.Name := "Memory"; cgroupcfg.isDefault := false |}).
  - constructor; [left; reflexivity | constructor].
  - reflexivity.
  - reflexivity.
Defined.

(** ** Factory.Create and Factory.Load *)

Ltac destruct_matches :=
  repeat match goal with
         | |- context [match ?x with _ => _ end] =>
             lazymatch x with
             | context [match _ with _ => _ end] => fail
             | _ => destruct x eqn:?
             end
         end.

Section FactoryFurther.

Context {W : Type} `{Host W}.

Lemma validateID_error_code (l : LinuxFactory) (id : string) (e : error) :
  validateID l id = Some e ->
  e = genericError InvalidIdFormat (Errorf ("invalid id format: " +:+ id)).
Proof.
  unfold validateID, newGenericError.
  destruct (negb (idRegexMatchString id)); [now intros [= <-]|].
  destruct (Z.of_nat (String.length id) >? maxIdLen); [now intros [= <-] | discriminate].
Qed.

(** What a [Create] that returns a container went through. *)
Lemma Create_ok_inv (l : LinuxFactory) (euid egid : Z) (w : W) (id : string)
    (config : configs.Config) c l' w' :
  Create l euid egid w id config = (Ok c, l', w') ->
  exists rootless,
    createPassed l euid egid w id config rootless w' /\
    l' = (if rootless then fst (RootlessCgroups l) else l) /\
    c = {| id := id; root := filepath_Join (Root l) id; config := config;
           cgroupManager := NewCgroupsManager l' (configs.Cgroups config) None;
           initPath := InitPath l'; initArgs := InitArgs l';
           criuPath := CriuPath l'; initProcess := None;
           rootless_ := rootless; created := 0; state := stoppedState |}.
Proof.
  unfold Create, createPassed.
  destruct (String.eqb_spec (Root l) "") as [Hr|Hr]; [discriminate|].
  destruct (validateID l id) eqn:Hid; [discriminate|].
  destruct (Validator l config) eqn:Hv; [discriminate|].
  destruct (isRootless euid egid config) as [rootless [e|]] eqn:Hiso; [discriminate|].
  destruct (if rootless then validate.Validate (Some config) else None) eqn:Hrv;
    [discriminate|].
  destruct (os_Stat w (filepath_Join (Root l) id)) as [serr|] eqn:Hs; [|discriminate].
  destruct (IsNotExist serr) eqn:Hne; simpl; [|discriminate].
  destruct (os_MkdirAll w (filepath_Join (Root l) id)) as [[merr|] w1] eqn:Hm;
    [discriminate|].
  intros Hc. inversion Hc; subst. exists rootless.
  split; [|split; reflexivity].
  repeat (split; [first [assumption | reflexivity]|]).
  split; [intros ->; assumption|]. split; [eauto | reflexivity].
Qed.

(** X6: every error that [Create] returns is a libcontainer error of kind
    [ConfigInvalid], [InvalidIdFormat], [IdInUse] or [SystemError]; it
    never returns [ContainerNotExists] and never a bare error. *)
Theorem Create_error_codes (l : LinuxFactory) (euid egid : Z) (w : W) (id : string)
    (config : configs.Config) :
  forall e, fst (fst (Create l euid egid w id config)) = Err e ->
    exists code cause, e = genericError code cause /\ createErrorCode code = true.
Proof.
  intros e. unfold Create, newGenericError.
  destruct (String.eqb (Root l) ""); [intros [= <-]; eauto|].
  destruct (validateID l id) eqn:Hid.
  { intros [= <-]. apply validateID_error_code in Hid. subst. eauto. }
  destruct_matches; simpl; intros [= <-]; eauto.
Qed.

(** A [Create] that returns an error. *)
Lemma Create_err_inv (l : LinuxFactory) (euid egid : Z) (w : W) (id : string)
    (config : configs.Config) e l' w' :
  Create l euid egid w id config = (Err e, l', w') ->
  l' = l /\ (w' = w \/ w' = snd (os_MkdirAll w (filepath_Join (Root l) id))).
Proof.
  unfold Create. destruct_matches; intros Hc; inversion Hc; subst;
    (split; [reflexivity|]);
    first [left; reflexivity | right; reflexivity].
Qed.

(** X7: [Create] changes nothing of the factory but, at most, its
    cgroup-manager constructor, which it sets to the rootless one; a
    [Create] that returns an error leaves the whole factory as it was, and
    the host as it was or as the failed [os.MkdirAll] left it. *)
Theorem Create_frame (l : LinuxFactory) (euid egid : Z) (w : W) (id : string)
    (config : configs.Config) :
  let r := Create l euid egid w id config in
  let l' := snd (fst r) in
  Root l' = Root l /\ InitPath l' = InitPath l /\ InitArgs l' = InitArgs l /\
  CriuPath l' = CriuPath l /\ Validator l' = Validator l /\
  (NewCgroupsManager l' = NewCgroupsManager l \/
   NewCgroupsManager l' = rootlessConstructor) /\
  (forall e, fst (fst r) = Err e ->
     l' = l /\
     (snd r = w \/ snd r = snd (os_MkdirAll w (filepath_Join (Root l) id)))).
Proof.
  cbv zeta.
  destruct (Create l euid egid w id config) as [[[c|e] l'] w'] eqn:Ec; simpl.
  - apply Create_ok_inv in Ec. destruct Ec as (rootless & _ & -> & _).
    destruct rootless; simpl; repeat (split; [reflexivity|]);
      (split; [first [left; reflexivity | right; reflexivity] | discriminate]).
  - apply Create_err_inv in Ec. destruct Ec as [-> Hw].
    repeat (split; [reflexivity|]). split; [left; reflexivity|].
    intros e0 _. split; [reflexivity | exact Hw].
Qed.

(** X8: a container comes out of [Create] only when the factory has a
    root, the id and the configuration passed every validation, the
    directory did not exist and was created; the container then is in the
    stopped state, has no init process, carries the id, the configuration
    and the flag that [isRootless] computed, lives in
    [<root>/<id>], and takes the init path, the init arguments and the
    criu path of the factory. *)
Theorem Create_success_container (l : LinuxFactory) (euid egid : Z) (w : W)
    (cid : string) (cfg : configs.Config) c l' w' :
  Create l euid egid w cid cfg = (Ok c, l', w') ->
  createPassed l euid egid w cid cfg (rootless_ c) w' /\
  state c = stoppedState /\ initProcess c = None /\
  id c = cid /\ config c = cfg /\
  root c = filepath_Join (Root l) cid /\
  initPath c = InitPath l /\ initArgs c = InitArgs l /\ criuPath c = CriuPath l /\
  cgroupManager c = NewCgroupsManager l' (configs.Cgroups cfg) None.
Proof.
  intros Hc. apply Create_ok_inv in Hc.
  destruct Hc as (rootless & Hp & -> & ->). simpl.
  split; [assumption|].
  destruct rootless; repeat split; reflexivity.
Qed.

(** X9: the invariant of rootless containers.  A container that [Create]
    returns with the rootless flag set was created by a caller other than
    root, has a user namespace, exactly the two mappings of container ID 0
    to the caller's UID and GID with size 1, a configuration that the
    rootless validator accepts, and the rootless cgroup manager; one that
    it returns with the flag clear was created by root. *)
Theorem Create_rootless_invariant (l : LinuxFactory) (euid egid : Z) (w : W)
    (cid : string) (cfg : configs.Config) c l' w' :
  Create l euid egid w cid cfg = (Ok c, l', w') ->
  (rootless_ c = true ->
     euid <> 0 /\
     configs.Contains (configs.Namespaces (config c)) configs.NEWUSER = true /\
     configs.UidMappings (config c) = [idmap 0 euid 1] /\
     configs.GidMappings (config c) = [idmap 0 egid 1] /\
     validate.Validate (Some (config c)) = None /\
     isRootlessManager (cgroupManager c) = true) /\
  (rootless_ c = false -> euid = 0).
Proof.
  intros Hc. apply Create_ok_inv in Hc.
  destruct Hc as (rootless & (_ & _ & _ & Hiso & Hrv & _) & -> & ->). simpl.
  split.
  - intros ->. apply isRootless_true_mappings in Hiso.
    destruct Hiso as (Hne & Hns & Hu & Hg). auto 10.
  - intros ->. destruct (Z.eq_dec euid 0) as [|Hne]; [assumption|].
    destruct (isRootless_nonroot_shape euid egid cfg Hne) as [(e & He) | Ht];
      congruence.
Qed.

(** X10: the rootless validator does not look at the cgroup paths, and
    the rootless manager refuses them: a rootless container whose cgroup
    configuration names explicit paths is created, and [Apply] on its
    cgroup manager fails for every pid. *)
Theorem Create_rootless_paths_apply_fails (l : LinuxFactory) (euid egid : Z) (w : W)
    (cid : string) (cfg : configs.Config) c l' w' cg paths :
  Create l euid egid w cid cfg = (Ok c, l', w') ->
  rootless_ c = true ->
  configs.Cgroups cfg = Some cg -> cgroupcfg.Paths cg = Some paths ->
  exists m, cgroupManager c = rootlessManager m /\
    forall (World : Type) (pid : Z) (world : World),
      exists err, rootless.Apply World m pid world = (Some err, world).
Proof.
  intros Hc Hr Hcg Hp. apply Create_ok_inv in Hc.
  destruct Hc as (rootless & _ & -> & ->). simpl in Hr. subst rootless. simpl.
  eexists. split; [reflexivity|].
  intros World pid world. unfold rootless.Apply. simpl. rewrite Hcg, Hp. eauto.
Qed.

(** X11: what [Load] reconstructs.  The container takes its configuration,
    rootless flag, creation time, init pid, start time and descriptors
    from the state file; its id is the name that was asked for and its
    root the directory read, whatever [ID] the state file holds; its
    cgroup manager is built by the factory's constructor from the saved
    cgroup paths, whatever the saved rootless flag is; its state is the
    one [refreshState] reports. *)
Theorem Load_success_container (l : LinuxFactory) (w : W) (cid : string) c :
  Load l w cid = Returns (Ok c) ->
  exists st,
    loadState l w (filepath_Join (Root l) cid) = Ok (Some st) /\
    refreshState w (loadedContainer l cid st) = Ok (state c) /\
    id c = cid /\ root c = filepath_Join (Root l) cid /\
    config c = Config st /\ rootless_ c = Rootless st /\
    created c = Created st /\
    initProcess c = Some {| processPid := InitProcessPid st;
                            processStartTime := InitProcessStartTime st;
                            fds := ExternalDescriptors st |} /\
    cgroupManager c =
      NewCgroupsManager l (configs.Cgroups (Config st)) (CgroupPaths st) /\
    initPath c = InitPath l /\ initArgs c = InitArgs l /\ criuPath c = CriuPath l.
Proof.
  unfold Load.
  destruct (String.eqb (Root l) ""); [discriminate|].
  destruct (loadState l w (filepath_Join (Root l) cid)) as [[st|]|e] eqn:Hst;
    [|discriminate|discriminate].
  fold (loadedContainer l cid st).
  destruct (refreshState w (loadedContainer l cid st)) as [k|e] eqn:Hk; [|discriminate].
  intros [= <-]. exists st. simpl. repeat split; assumption.
Qed.

(** X12: the errors of [Load].  An empty root gives [ConfigInvalid]; a
    state file that does not exist gives [ContainerNotExists] around the
    error of [os.Open]; any other failure to open it, and a state file
    that does not decode, give [SystemError]; an error of [refreshState]
    is returned as it is. *)
Theorem Load_errors (l : LinuxFactory) (w : W) (id : string) :
  let path := filepath_Join (filepath_Join (Root l) id) stateFilename in
  (Root l = "" ->
     Load l w id = Returns (Err (genericError ConfigInvalid (Errorf "invalid root")))) /\
  (Root l <> "" -> forall e, os_Open w path = Err e ->
     Load l w id =
       Returns (Err (genericError
                       (if IsNotExist e then ContainerNotExists else SystemError) e))) /\
  (Root l <> "" -> forall f e, os_Open w path = Ok f -> json_Decode f = Err e ->
     Load l w id = Returns (Err (genericError SystemError e))) /\
  (Root l <> "" -> forall f st e, os_Open w path = Ok f -> json_Decode f = Ok (Some st) ->
     refreshState w (loadedContainer l id st) = Err e ->
     Load l w id = Returns (Err e)).
Proof.
  cbv zeta. unfold Load, loadState, newGenericError.
  split; [intros ->; reflexivity|].
  assert (Hroot : Root l <> "" -> String.eqb (Root l) "" = false)
    by (intros Hr; now apply String.eqb_neq).
  split; [|split].
  - intros Hr e He. rewrite (Hroot Hr), He. now destruct (IsNotExist e).
  - intros Hr f e Hf He. rewrite (Hroot Hr), Hf, He. reflexivity.
  - intros Hr f st e Hf Hst He. rewrite (Hroot Hr), Hf, Hst.
    fold (loadedContainer l id st). now rewrite He.
Qed.

End FactoryFurther.

(** Root creates c1 on a read-only file system: the error of [os.MkdirAll]
    comes back as a [SystemError]. *)
Lemma Create_error_codes_witness :
  exists code cause,
    genericError SystemError (PathError "mkdir" "/run/demo/c1" EROFS) =
      genericError code cause /\
    createErrorCode code = true.
Proof.
  apply (Create_error_codes (newFactory "/run/demo") 0 0 readOnlyHost "c1" rootConfig).
  reflexivity.
Defined.

(** The user 1000 creates c1 in /run/demo from the example scenario. *)
Lemma Create_success_container_witness :
  exists c l' w',
    Create (newFactory "/run/demo") 1000 1000 demoHost "c1" (rootlessConfig 1000 1000) =
      (Ok c, l', w') /\
    root c = "/run/demo/c1" /\ state c = stoppedState /\ rootless_ c = true /\
    nodes w' !! "/run/demo/c1" = Some Dir.
Proof.
  destruct (Create (newFactory "/run/demo") 1000 1000 demoHost "c1"
              (rootlessConfig 1000 1000)) as [[[c|e] l'] w'] eqn:Ec;
    [|vm_compute in Ec; discriminate].
  exists c, l', w'. split; [reflexivity|].
  destruct (Create_success_container _ _ _ _ _ _ _ _ _ Ec)
    as ((_ & _ & _ & Hiso & _ & _ & Hm) & Hst & _ & _ & _ & Hroot & _).
  split; [exact Hroot|]. split; [exact Hst|].
  split.
  - change (isRootless 1000 1000 (rootlessConfig 1000 1000)) with (true, @None error) in Hiso.
    congruence.
  - vm_compute in Hm. inversion Hm. reflexivity.
Defined.

Lemma Create_rootless_invariant_witness :
  exists c l' w',
    Create (newFactory "/run/demo") 1000 1000 demoHost "c1" (rootlessConfig 1000 1000) =
      (Ok c, l', w') /\
    configs.UidMappings (config c) = [idmap 0 1000 1] /\
    isRootlessManager (cgroupManager c) = true.
Proof.
  destruct (Create (newFactory "/run/demo") 1000 1000 demoHost "c1"
              (rootlessConfig 1000 1000)) as [[[c|e] l'] w'] eqn:Ec;
    [|vm_compute in Ec; discriminate].
  exists c, l', w'. split; [reflexivity|].
  destruct (Create_rootless_invariant _ _ _ _ _ _ _ _ _ Ec) as [Ht _].
  assert (Hr : rootless_ c = true) by (vm_compute in Ec; inversion Ec; reflexivity).
  destruct (Ht Hr) as (_ & _ & Hu & _ & _ & Hm). auto.
Defined.

(** The user 1000 creates c1 from [pathsConfig]: the container is there,
    and [Apply] on its manager fails. *)
Lemma Create_rootless_paths_apply_fails_witness :
  exists c l' w' m,
    Create (newFactory "/run/demo") 1000 1000 demoHost "c1" pathsConfig = (Ok c, l', w') /\
    cgroupManager c = rootlessManager m /\
    exists err, rootless.Apply unit m 4242 tt = (Some err, tt).
Proof.
  destruct (Create (newFactory "/run/demo") 1000 1000 demoHost "c1" pathsConfig)
    as [[[c|e] l'] w'] eqn:Ec; [|vm_compute in Ec; discriminate].
  assert (Hr : rootless_ c = true) by (vm_compute in Ec; inversion Ec; reflexivity).
  destruct (Create_rootless_paths_apply_fails _ _ _ _ _ _ _ _ _ _
              {[ "memory" := "/sys/fs/cgroup/memory/c1" ]} Ec Hr eq_refl eq_refl)
    as (m & Hm & Happly).
  exists c, l', w', m. split; [reflexivity|]. split; [exact Hm|]. apply Happly.
Defined.

(** [Load] of the directory copy, whose state file names the container
    original and says it is rootless, on a factory that builds cgroupfs
    managers. *)
Lemma Load_success_container_witness :
  exists c,
    Load (newFactory "/run/demo") hostWithCopy "copy" = Returns (Ok c) /\
    id c = "copy" /\ rootless_ c = true /\ config c = rootlessConfig 1000 1000 /\
    cgroupManager c = fsManager None None /\ state c = stoppedState.
Proof.
  destruct (Load (newFactory "/run/demo") hostWithCopy "copy") as [[c|e]|v|] eqn:El;
    try (vm_compute in El; discriminate).
  exists c. split; [reflexivity|].
  destruct (Load_success_container _ _ _ _ El)
    as (st & Hst & Hk & Hid & _ & Hcfg & Hrl & _ & _ & Hm & _).
  vm_compute in Hst. inversion Hst; subst st. clear Hst.
  split; [exact Hid|]. split; [exact Hrl|]. split; [exact Hcfg|]. split; [exact Hm|].
  vm_compute in Hk. now inversion Hk.
Defined.

(** ** New and the option funcs *)

Section NewProperties.

Context {W : Type} `{Host W} `{NewHost W}.

Lemma applyOptions_app (pre post : list (optionFunc W)) (l : LinuxFactory) (w : W) :
  applyOptions (pre ++ post) l w =
    match applyOptions pre l w with
    | (Returns (Ok l1), w1) => applyOptions post l1 w1
    | other => other
    end.
Proof.
  revert l w. induction pre as [|opt pre IH]; intros l w; simpl; [reflexivity|].
  destruct (opt l w) as [[[l' [e|]]|v|] w']; try reflexivity. apply IH.
Qed.

Lemma New_app (root : string) (pre post : list (optionFunc W)) (w : W) :
  New root (pre ++ post) w =
    match New root pre w with
    | (Returns (Ok l1), w1) => applyOptions post l1 w1
    | other => other
    end.
Proof.
  unfold New.
  destruct (if negb (String.eqb root "") then os_MkdirAll w root else (None, w))
    as [[e|] w0]; [reflexivity|].
  cbv zeta.
  destruct (InitArgs_ [os_Args0; "init"] _ w0) as [[[l1 e]|v|] w1]; try reflexivity.
  apply applyOptions_app.
Qed.

(** X13: the options of [New] run in order and the first one that returns
    an error ends the construction: when the options before [bad] build
    the factory [l1] and [bad] returns an error on it, [New] returns that
    error as it is (no libcontainer error kind is put around it), builds
    no factory, and the options after [bad] do not run: the host is left
    as [bad] left it. *)
Theorem New_first_failing_option (root : string) (pre post : list (optionFunc W))
    (bad : optionFunc W) (w w1 w2 : W) (l1 l2 : LinuxFactory) (err : error) :
  New root pre w = (Returns (Ok l1), w1) ->
  bad l1 w1 = (Returns (l2, Some err), w2) ->
  New root (pre ++ bad :: post) w = (Returns (Err err), w2).
Proof.
  intros Hpre Hbad. rewrite New_app, Hpre. simpl. now rewrite Hbad.
Qed.

Lemma applyOptions_cgroup (choices : list cgroupChoice) (l : LinuxFactory) (w : W) :
  exists l',
    applyOptions (map cgroupOption choices) l w = (Returns (Ok l'), w) /\
    Root l' = Root l /\ InitPath l' = InitPath l /\ InitArgs l' = InitArgs l /\
    CriuPath l' = CriuPath l /\ Validator l' = Validator l /\
    NewCgroupsManager l' =
      match last choices with
      | Some ch => cgroupConstructor ch
      | None => NewCgroupsManager l
      end.
Proof.
  revert l. induction choices as [|ch choices IH]; intros l; simpl.
  - exists l. repeat split; reflexivity.
  - assert (Hstep : exists l1,
              cgroupOption ch l w = (Returns (l1, None), w) /\
              Root l1 = Root l /\ InitPath l1 = InitPath l /\ InitArgs l1 = InitArgs l /\
              CriuPath l1 = CriuPath l /\ Validator l1 = Validator l /\
              NewCgroupsManager l1 = cgroupConstructor ch).
    { destruct ch; simpl; eexists; repeat split; reflexivity. }
    destruct Hstep as (l1 & -> & Hr & Hp & Ha & Hc & Hv & Hm).
    destruct (IH l1) as (l' & -> & Hr' & Hp' & Ha' & Hc' & Hv' & Hm').
    exists l'. split; [reflexivity|].
    repeat (split; [congruence|]).
    rewrite Hm', last_cons. now destruct (last choices).
Qed.

(** X14: among cgroup option funcs the last one wins.  [New] with a list
    of [SystemdCgroups], [Cgroupfs] and [RootlessCgroups] options builds a
    factory whose cgroup-manager constructor is that of the last option,
    and the cgroupfs one when the list is empty; the root is the one
    asked for and the criu path is [criu]. *)
Theorem New_last_cgroup_option_wins (root : string) (choices : list cgroupChoice)
    (w w' : W) :
  (if negb (String.eqb root "") then os_MkdirAll w root else (None, w)) = (None, w') ->
  exists l,
    New root (map cgroupOption choices) w = (Returns (Ok l), w') /\
    Root l = root /\ CriuPath l = "criu" /\
    NewCgroupsManager l = cgroupConstructor (default useCgroupfs (last choices)).
Proof.
  intros Hm. unfold New. rewrite Hm. cbv zeta.
  destruct (InitArgs_ [os_Args0; "init"] _ w') as [[[l1 e]|v|] w1] eqn:Hi.
  - assert (Hl1 : w1 = w' /\ Root l1 = root /\ CriuPath l1 = "criu").
    { revert Hi. unfold InitArgs_.
      destruct (if String.eqb (filepath_Base os_Args0) os_Args0 then _ else _);
        intros [= <- <- <-]; auto. }
    destruct Hl1 as (-> & Hr & Hc).
    destruct (applyOptions_cgroup choices (fst (Cgroupfs l1)) w')
      as (l' & Happ & Hr' & _ & _ & Hc' & _ & Hm').
    exists l'. split; [exact Happ|]. split; [now rewrite Hr'|].
    split; [now rewrite Hc'|]. rewrite Hm'. now destruct (last choices) as [[]|].
  - exfalso. revert Hi. unfold InitArgs_.
    destruct (if String.eqb (filepath_Base os_Args0) os_Args0 then _ else _);
      discriminate.
  - exfalso. revert Hi. unfold InitArgs_.
    destruct (if String.eqb (filepath_Base os_Args0) os_Args0 then _ else _);
      discriminate.
Qed.

Lemma applyOptions_keepsRoot (options : list (optionFunc W)) (l l' : LinuxFactory)
    (w w' : W) :
  Forall keepsRoot options ->
  applyOptions options l w = (Returns (Ok l'), w') -> Root l' = Root l.
Proof.
  intros Hall. revert l w. induction Hall as [|opt options Hopt _ IH]; intros l w; simpl.
  - now intros [= <- _].
  - destruct (opt l w) as [[[l1 [e|]]|v|] w1] eqn:Ho; try discriminate.
    intros Hrest. rewrite (IH _ _ Hrest). exact (Hopt _ _ _ _ _ Ho).
Qed.

(** The option funcs of the package leave the root alone. *)
Lemma package_options_keepRoot :
  (forall ch, keepsRoot (W := W) (cgroupOption ch)) /\
  (forall args, keepsRoot (W := W) (InitArgs_ args)) /\
  (forall path args, keepsRoot (W := W) (InitPath_ path args)) /\
  keepsRoot (W := W) TmpfsRoot.
Proof.
  unfold keepsRoot. repeat split.
  - intros [] l w l' e w'; simpl; now intros [= <- _ _].
  - intros args l w l' e w'. unfold InitArgs_.
    destruct args as [|name rest]; [discriminate|].
    destruct (if String.eqb (filepath_Base name) name then _ else _);
      now intros [= <- _ _].
  - intros path args l w l' e w'. unfold InitPath_. now intros [= <- _ _].
  - intros l w l' e w'. unfold TmpfsRoot. destruct_matches; now intros [= <- _ _].
Qed.

(** X15: a factory that [New] builds with options that leave the root
    alone has the root that was asked for.  So a factory built for the
    root [""] cannot create or load anything: every [Create] and every
    [Load] on it returns [ConfigInvalid], and changes nothing. *)
Theorem New_root_kept (root : string) (options : list (optionFunc W))
    (w w' : W) (l : LinuxFactory) :
  Forall keepsRoot options ->
  New root options w = (Returns (Ok l), w') ->
  Root l = root /\
  (root = "" ->
   forall euid egid w2 id cfg,
     Create l euid egid w2 id cfg =
       (Err (genericError ConfigInvalid (Errorf "invalid root")), l, w2) /\
     Load l w2 id = Returns (Err (genericError ConfigInvalid (Errorf "invalid root")))).
Proof.
  intros Hall HN.
  assert (Hroot : Root l = root).
  { revert HN. unfold New.
    destruct (if negb (String.eqb root "") then os_MkdirAll w root else (None, w))
      as [[e|] w0]; [discriminate|].
    cbv zeta.
    destruct (InitArgs_ [os_Args0; "init"] _ w0) as [[[l1 e]|v|] w1] eqn:Hi;
      try discriminate.
    intros Happ. rewrite (applyOptions_keepsRoot _ _ _ _ _ Hall Happ). simpl.
    destruct package_options_keepRoot as (_ & Hia & _).
    now rewrite (Hia _ _ _ _ _ _ Hi). }
  split; [assumption|].
  intros -> euid egid w2 id cfg. unfold Create, Load. rewrite Hroot. split; reflexivity.
Qed.


(** X17: the init path and arguments that [New] sets by default.  When
    [os.Args[0]] is a bare name it is looked up on the path and kept as it
    is when the lookup fails; otherwise it is made absolute.  When that
    fails the error is dropped: [New] still returns a factory, with an
    empty init path and no init arguments. *)
Theorem New_default_init (root : string) (w w' : W) (l : LinuxFactory) :
  New root [] w = (Returns (Ok l), w') ->
  (filepath_Base os_Args0 = os_Args0 ->
     InitPath l = "/proc/self/exe" /\
     InitArgs l = [match exec_LookPath w' os_Args0 with
                   | Ok lp => lp
                   | Err _ => os_Args0
                   end; "init"]) /\
  (filepath_Base os_Args0 <> os_Args0 ->
     match path_Abs w' os_Args0 with
     | Ok abs => InitPath l = "/proc/self/exe" /\ InitArgs l = [abs; "init"]
     | Err _ => InitPath l = "" /\ InitArgs l = []
     end).
Proof.
  unfold New.
  destruct (if negb (String.eqb root "") then os_MkdirAll w root else (None, w))
    as [[e|] w0]; [discriminate|].
  cbv zeta. unfold InitArgs_.
  destruct (String.eqb_spec (filepath_Base os_Args0) os_Args0) as [Hb|Hb].
  - destruct (exec_LookPath w0 os_Args0) as [lp|e] eqn:Hl; simpl;
      intros [= <- <-]; (split; [|congruence]); intros _; rewrite Hl; auto.
  - destruct (path_Abs w0 os_Args0) as [abs|e] eqn:Ha; simpl;
      intros [= <- <-]; (split; [congruence|]); intros _; rewrite Ha; auto.
Qed.

End NewProperties.


(** [New] for the root [""] with [RootlessCgroups], [TmpfsRoot] and
    [SystemdCgroups]: there is nothing to mount a tmpfs on, the error of
    the mount comes back as it is. *)
Lemma New_first_failing_option_witness :
  New "" [cgroupOption useRootless; TmpfsRoot; cgroupOption useSystemd] demoMachine =
    (Returns (Err (PathError "mount" "" ENOENT)), demoMachine).
Proof.
  eapply (New_first_failing_option "" [cgroupOption useRootless]
            [cgroupOption useSystemd] TmpfsRoot); vm_compute; reflexivity.
Defined.

(** [RootlessCgroups] and then [SystemdCgroups]: the systemd manager. *)
Lemma New_last_cgroup_option_wins_witness :
  exists l,
    New "/run/demo" (map cgroupOption [useRootless; useSystemd]) demoMachine =
      (Returns (Ok l),
       withTable demoMachine
         {| nodes := <["/run/demo" := Dir]> {[ "/run" := Dir ]}; readOnly := false;
            entries := {[ "/run" := [] ]}; running := [] |}) /\
    NewCgroupsManager l None None = systemdManager None None.
Proof.
  destruct (New_last_cgroup_option_wins "/run/demo" [useRootless; useSystemd] demoMachine
              (withTable demoMachine
                 {| nodes := <["/run/demo" := Dir]> {[ "/run" := Dir ]}; readOnly := false;
                    entries := {[ "/run" := [] ]}; running := [] |}))
    as (l & HN & _ & _ & Hm).
  - vm_compute. reflexivity.
  - exists l. split; [exact HN|]. now rewrite Hm.
Defined.

(** The factory of [New("")], as the init command builds it. *)
Lemma New_root_kept_witness :
  exists l,
    New "" [] demoMachine = (Returns (Ok l), demoMachine) /\
    Load l demoMachine "c1" =
      Returns (Err (genericError ConfigInvalid (Errorf "invalid root"))).
Proof.
  destruct (New "" [] demoMachine) as [[[l|e]|v|] m1] eqn:HN;
    try (vm_compute in HN; discriminate).
  assert (m1 = demoMachine) as -> by (vm_compute in HN; now inversion HN).
  exists l. split; [reflexivity|].
  destruct (New_root_kept "" [] demoMachine demoMachine l ltac:(constructor) HN) as [_ Hno].
  apply (Hno eq_refl 0 0 demoMachine "c1" rootConfig).
Defined.


(** runc is found on the path as /usr/bin/runc. *)
Lemma New_default_init_witness :
  exists l m1,
    New "" [] demoMachine = (Returns (Ok l), m1) /\
    InitPath l = "/proc/self/exe" /\ InitArgs l = ["/usr/bin/runc"; "init"].
Proof.
  destruct (New "" [] demoMachine) as [[[l|e]|v|] m1] eqn:HN;
    try (vm_compute in HN; discriminate).
  exists l, m1. split; [reflexivity|].
  destruct (New_default_init "" demoMachine m1 l HN) as [Hbare _].
  assert (m1 = demoMachine) as -> by (vm_compute in HN; now inversion HN).
  destruct (Hbare eq_refl) as [Hp Ha]. split; [exact Hp|]. rewrite Ha. reflexivity.
Defined.

(** ** StartInitialization: failing writes *)

Section InitFurther.

Context {C : Type} `{InitHost C}.


End InitFurther.


(** ** getContainers: rows and entries, errors, owners *)

Section ListFurther.

Context {W : Type} `{Host W} `{ListHost W}.

Lemma stateRow_owner (item : FileInfo) (cs : Status) (st : State) :
  row_Owner (stateRow item cs st) = UserName (ownerOf item).
Proof.
  unfold stateRow. now destruct (utils_Annotations (configs.Labels (Config st))).
Qed.

Lemma listLoop_rowFor (factory : LinuxFactory) (w : W) (items : list FileInfo)
    (s rows : list containerState) :
  listLoop factory w items s = Returns (Ok rows) ->
  exists rows',
    rows = s ++ rows' /\
    Forall2 (rowFor factory w) (List.filter IsDir items) rows'.
Proof.
  revert s. induction items as [|item items IH]; intros s; simpl.
  - intros [= <-]. exists []. split; [now rewrite app_nil_r | constructor].
  - destruct (IsDir item) eqn:Ed; [|apply IH].
    destruct (Load factory w (Name item)) as [[container|e]|v|] eqn:El;
      [| |discriminate|discriminate].
    + destruct (container_Status w container) as [cs|e] eqn:Es; [|discriminate].
      destruct (container_State w container) as [st|e] eqn:Et; [|discriminate].
      intros Hl. destruct (IH _ Hl) as (rows' & -> & Hall).
      exists (stateRow item cs st :: rows'). split; [now rewrite <- app_assoc|].
      constructor; [|assumption].
      split; [apply stateRow_owner|]. right. exists container, cs, st. auto.
    + intros Hl. destruct (IH _ Hl) as (rows' & -> & Hall).
      exists (placeholderRow item :: rows'). split; [now rewrite <- app_assoc|].
      constructor; [|assumption].
      split; [reflexivity|]. left. split; [exists e; assumption | reflexivity].
Qed.

(** X19: a listing that succeeds has exactly one row per directory entry
    of the root, in the order of [ReadDir]; entries that are no
    directories give no row; each row shows the owner of its entry and is
    the placeholder of a container that does not load or the row of a
    container that loads and reports. *)
Theorem getContainers_one_row_per_directory (context : Context) (w : W)
    (rows : list containerState) :
  getContainers context w = Listed (Ok rows) ->
  exists factory absRoot items,
    loadFactory context = Ok factory /\
    filepath_Abs (GlobalRoot context) = Ok absRoot /\
    ioutil_ReadDir w absRoot = Ok items /\
    Forall2 (rowFor factory w) (List.filter IsDir items) rows /\
    List.length rows = List.length (List.filter IsDir items).
Proof.
  unfold getContainers.
  destruct (loadFactory context) as [factory|e] eqn:Hf; [|discriminate].
  destruct (filepath_Abs (GlobalRoot context)) as [absRoot|e] eqn:Ha; [|discriminate].
  destruct (ioutil_ReadDir w absRoot) as [items|e] eqn:Hd; [|discriminate].
  destruct (listLoop factory w items []) as [[rows0|e]|v|] eqn:Hl; try discriminate.
  intros [= <-]. destruct (listLoop_rowFor _ _ _ _ _ Hl) as (rows' & -> & Hall).
  exists factory, absRoot, items. simpl.
  repeat (split; [first [reflexivity | assumption]|]).
  symmetry. apply (Forall2_length _ _ _ Hall).
Qed.

(** X20: the listing does not degrade for a container that loads and then
    fails to report its status or state: it ends with that error and
    returns no row at all, whatever the entries before it gave and
    whatever follows. *)
Theorem getContainers_report_error_aborts (context : Context) (w : W)
    (factory : LinuxFactory) (absRoot : string) (pre post : list FileInfo)
    (item : FileInfo) (err : error) :
  loadFactory context = Ok factory ->
  filepath_Abs (GlobalRoot context) = Ok absRoot ->
  ioutil_ReadDir w absRoot = Ok (pre ++ item :: post) ->
  (forall i, In i pre -> IsDir i = true -> rowOf factory w i <> None) ->
  IsDir item = true ->
  failsToReport factory w item err ->
  getContainers context w = Listed (Err err).
Proof.
  intros Hf Ha Hd Hpre Hdir (container & Hl & Hrep).
  unfold getContainers. rewrite Hf, Ha, Hd.
  rewrite listLoop_app, (listLoop_rows _ _ _ _ Hpre). simpl.
  rewrite Hdir, Hl.
  destruct Hrep as [Hs | (cs & Hs & Ht)]; rewrite Hs; [reflexivity|].
  now rewrite Ht.
Qed.

(** X25: a state file that holds the JSON literal [null] decodes without
    an error into a nil state.  [Load] then dereferences the nil state and
    panics, and a listing that comes to such a directory ends in that
    panic: it gives no placeholder row and returns nothing, whatever the
    entries before it gave. *)
Theorem getContainers_nil_state_panics (context : Context) (w : W)
    (factory : LinuxFactory) (absRoot : string) (pre post : list FileInfo)
    (item : FileInfo) (f : File) :
  loadFactory context = Ok factory ->
  filepath_Abs (GlobalRoot context) = Ok absRoot ->
  ioutil_ReadDir w absRoot = Ok (pre ++ item :: post) ->
  (forall i, In i pre -> IsDir i = true -> rowOf factory w i <> None) ->
  IsDir item = true ->
  Root factory <> "" ->
  os_Open w (filepath_Join (filepath_Join (Root factory) (Name item)) stateFilename) = Ok f ->
  json_Decode f = Ok None ->
  Load factory w (Name item) = Panics nilDereference /\
  getContainers context w = Panicked nilDereference.
Proof.
  intros Hf Ha Hd Hpre Hdir Hroot Hopen Hnull.
  assert (Hl : Load factory w (Name item) = Panics nilDereference).
  { unfold Load, loadState. apply String.eqb_neq in Hroot.
    now rewrite Hroot, Hopen, Hnull. }
  split; [exact Hl|].
  unfold getContainers. rewrite Hf, Ha, Hd.
  rewrite listLoop_app, (listLoop_rows _ _ _ _ Hpre). simpl.
  now rewrite Hdir, Hl.
Qed.

(** X21: how the listing fails before it looks at an entry: an error of
    [loadFactory] or of [filepath.Abs] is returned, while an error of
    [ReadDir] ends the process through [fatal], and nothing else does. *)
Theorem getContainers_fatal_iff (context : Context) (w : W) (err : error) :
  (getContainers context w = Fatal err <->
   exists factory absRoot,
     loadFactory context = Ok factory /\
     filepath_Abs (GlobalRoot context) = Ok absRoot /\
     ioutil_ReadDir w absRoot = Err err) /\
  (loadFactory context = Err err -> getContainers context w = Listed (Err err)) /\
  (forall factory, loadFactory context = Ok factory ->
     filepath_Abs (GlobalRoot context) = Err err ->
     getContainers context w = Listed (Err err)).
Proof.
  unfold getContainers. split; [|split].
  - destruct (loadFactory context) as [factory|e].
    + destruct (filepath_Abs (GlobalRoot context)) as [absRoot|e].
      * destruct (ioutil_ReadDir w absRoot) as [items|e] eqn:Hd.
        -- split.
           ++ destruct (listLoop factory w items []) as [r|v|]; discriminate.
           ++ intros (f & a & [= <-] & [= <-] & Hd'). congruence.
        -- split.
           ++ intros [= <-]. eauto.
           ++ intros (f & a & [= <-] & [= <-] & Hd'). congruence.
      * split; [discriminate | intros (f & a & _ & Ha & _); discriminate].
    + split; [discriminate | intros (f & a & Hf & _); discriminate].
  - intros ->. reflexivity.
  - intros factory -> ->. reflexivity.
Qed.

Lemma runeString_length (r : Z) :
  (1 <= String.length (runeString r) <= 4)%nat.
Proof.
  unfold runeString.
  repeat match goal with
         | |- context [if ?b then _ else _] => destruct b
         end; simpl; lia.
Qed.

(** X22: the owner of an entry whose uid has no user.  When the lookup
    fails the owner column shows the conversion [string(uid)]: the UTF-8
    encoding of the code point with that number, one to four bytes long,
    and for a uid below 128 the single byte with that value. *)
Theorem ownerOf_unknown_uid (item : FileInfo) :
  snd (user_LookupUid (Uid item)) <> None ->
  UserName (ownerOf item) = runeString (Uid item) /\
  (1 <= String.length (UserName (ownerOf item)) <= 4)%nat /\
  (0 <= Uid item < 128 ->
   UserName (ownerOf item) = String (ascii_of_nat (Z.to_nat (Uid item))) "").
Proof.
  intros Herr.
  assert (Hname : UserName (ownerOf item) = runeString (Uid item)).
  { unfold ownerOf. destruct (user_LookupUid (Uid item)) as [owner [e|]];
      [reflexivity | simpl in Herr; congruence]. }
  rewrite Hname. split; [reflexivity|]. split; [apply runeString_length|].
  intros [Hlo Hhi]. unfold runeString, byte.
  destruct (Z.ltb_spec (Uid item) 0); [lia|].
  destruct (Z.ltb_spec 1114111 (Uid item)); [lia|].
  destruct (Z.leb_spec 55296 (Uid item)); [lia|]. simpl.
  destruct (Z.ltb_spec (Uid item) 128); [reflexivity | lia].
Qed.

End ListFurther.

(** The listing of the crowded root: three rows for the three
    directories, none for the file. *)
Lemma getContainers_one_row_per_directory_witness :
  exists rows,
    getContainers {| GlobalRoot := "/run/demo" |} crowdedHost = Listed (Ok rows) /\
    map row_ID rows = ["broken"; "c0"; "copy"] /\
    List.length rows = 3%nat.
Proof.
  destruct (getContainers {| GlobalRoot := "/run/demo" |} crowdedHost)
    as [[rows|e]|e|v|] eqn:Hg; try (vm_compute in Hg; discriminate).
  exists rows. split; [reflexivity|].
  destruct (getContainers_one_row_per_directory _ _ _ Hg)
    as (factory & absRoot & items & Hf & Ha & Hd & _ & Hlen).
  vm_compute in Hf. inversion Hf; subst factory. clear Hf.
  vm_compute in Ha. inversion Ha; subst absRoot. clear Ha.
  vm_compute in Hd. inversion Hd; subst items. clear Hd.
  split; [|exact Hlen].
  vm_compute in Hg. inversion Hg. reflexivity.
Defined.

(** The listing of /run/demo on [hostWithNull]: the row of c0 is built,
    then the [null] state file of void makes [Load] panic. *)
Lemma getContainers_nil_state_panics_witness :
  Load (newFactory "/run/demo") hostWithNull "void" = Panics nilDereference /\
  getContainers {| GlobalRoot := "/run/demo" |} hostWithNull = Panicked nilDereference.
Proof.
  apply (getContainers_nil_state_panics
           {| GlobalRoot := "/run/demo" |} hostWithNull (newFactory "/run/demo") "/run/demo"
           [{| Name := "c0"; IsDir := true; Uid := 0 |}] []
           {| Name := "void"; IsDir := true; Uid := 0 |} (NullFile : File (Host := tableHost))).
  - reflexivity.
  - reflexivity.
  - reflexivity.
  - intros i [<- | []] _. vm_compute. discriminate.
  - reflexivity.
  - discriminate.
  - reflexivity.
  - reflexivity.
Defined.

(** On the strict host the stopped container copy loads and cannot
    report its status: the listing of the crowded root ends with that
    error, after the placeholder of broken and the row of c0 were built. *)
Lemma getContainers_report_error_aborts_witness :
  getContainers (H0 := strictList) {| GlobalRoot := "/run/demo" |} crowdedHost =
    Listed (Err (Errorf "open /sys/fs/cgroup/freezer/freezer.state: permission denied")).
Proof.
  apply (getContainers_report_error_aborts (H0 := strictList)
           {| GlobalRoot := "/run/demo" |} crowdedHost (newFactory "/run/demo") "/run/demo"
           [{| Name := "broken"; IsDir := true; Uid := 65 |};
            {| Name := "c0"; IsDir := true; Uid := 0 |}]
           [{| Name := "notes.txt"; IsDir := false; Uid := 0 |}]
           {| Name := "copy"; IsDir := true; Uid := 1000 |}).
  - reflexivity.
  - reflexivity.
  - reflexivity.
  - intros i [<- | [<- | []]] _; vm_compute; discriminate.
  - reflexivity.
  - eexists. split; [vm_compute; reflexivity|]. left. reflexivity.
Defined.

(** The owner of the directory broken, uid 65, on a host that knows only
    root: the letter A. *)
Lemma ownerOf_unknown_uid_witness :
  UserName (ownerOf (H0 := strictList) {| Name := "broken"; IsDir := true; Uid := 65 |}) = "A".
Proof.
  destruct (ownerOf_unknown_uid (H0 := strictList)
              {| Name := "broken"; IsDir := true; Uid := 65 |}) as (_ & _ & Hbyte).
  - discriminate.
  - rewrite Hbyte by (simpl; lia). reflexivity.
Defined.

(** ** ToRootless: what it keeps, and what a second call does *)

Lemma keepOptions_filter (opts : list string) :
  specconv.keepOptions opts = List.filter (fun opt => negb (idOption opt)) opts.
Proof.
  induction opts as [|o opts IH]; simpl; [reflexivity|].
  unfold idOption at 1. rewrite negb_orb, IH. reflexivity.
Qed.

(** X23: what [ToRootless] keeps.  The version, platform, root, process,
    host name, masked and read-only paths of the spec stay; the namespaces
    stay, in order, with one user-namespace entry put behind them; the
    mounts stay, in order, each with its destination, type and source and
    with its options less the [uid=] and [gid=] ones; the mappings and
    resource limits the spec had are dropped. *)
Theorem ToRootless_keeps (euid egid : Z) (spec : specs.Spec) :
  let s := specconv.ToRootless euid egid spec in
  specs.Version s = specs.Version spec /\
  specs.Platform_ s = specs.Platform_ spec /\
  specs.Root_ s = specs.Root_ spec /\
  specs.Process_ s = specs.Process_ spec /\
  specs.Hostname s = specs.Hostname spec /\
  specs.MaskedPaths (specs.Linux_ s) = specs.MaskedPaths (specs.Linux_ spec) /\
  specs.ReadonlyPaths (specs.Linux_ s) = specs.ReadonlyPaths (specs.Linux_ spec) /\
  specs.Namespaces (specs.Linux_ s) =
    specs.Namespaces (specs.Linux_ spec) ++
    [{| specs.Type_ := specs.UserNamespace; specs.Path := "" |}] /\
  Forall2 strippedFrom (specs.Mounts spec) (specs.Mounts s) /\
  List.length (specs.UIDMappings (specs.Linux_ s)) = 1%nat /\
  List.length (specs.GIDMappings (specs.Linux_ s)) = 1%nat.
Proof.
  cbv zeta. repeat (split; [reflexivity|]).
  split; [|split; reflexivity].
  simpl. induction (specs.Mounts spec) as [|m ms IH]; simpl; constructor; [|exact IH].
  unfold strippedFrom. simpl. repeat (split; [reflexivity|]). apply keepOptions_filter.
Qed.

Lemma keepOptions_idempotent (opts : list string) :
  specconv.keepOptions (specconv.keepOptions opts) = specconv.keepOptions opts.
Proof.
  induction opts as [|o opts IH]; simpl; [reflexivity|].
  destruct (negb (strings.HasPrefix o "gid=") && negb (strings.HasPrefix o "uid="))
    eqn:Ek; simpl; [|exact IH].
  now rewrite Ek, IH.
Qed.

(** X24: [ToRootless] is not idempotent.  Every call puts one more
    user-namespace entry behind the namespaces, also when the spec has
    one already; a second call changes nothing else. *)
Theorem ToRootless_again (euid egid : Z) (spec : specs.Spec) :
  let s1 := specconv.ToRootless euid egid spec in
  let s2 := specconv.ToRootless euid egid s1 in
  userNamespaces s1 = S (userNamespaces spec) /\
  userNamespaces s2 = S (S (userNamespaces spec)) /\
  specs.Mounts s2 = specs.Mounts s1 /\
  specs.UIDMappings (specs.Linux_ s2) = specs.UIDMappings (specs.Linux_ s1) /\
  specs.GIDMappings (specs.Linux_ s2) = specs.GIDMappings (specs.Linux_ s1) /\
  specs.Resources_ (specs.Linux_ s2) = specs.Resources_ (specs.Linux_ s1) /\
  specs.Namespaces (specs.Linux_ s2) =
    specs.Namespaces (specs.Linux_ s1) ++
    [{| specs.Type_ := specs.UserNamespace; specs.Path := "" |}].
Proof.
  cbv zeta. unfold userNamespaces. simpl.
  rewrite !List.filter_app, !length_app. simpl.
  split; [lia|]. split; [lia|].
  split; [|repeat split; reflexivity].
  rewrite map_map. apply map_ext. intros m. unfold specconv.stripMount. simpl.
  now rewrite keepOptions_idempotent.
Qed.
